(** * tweepy/auth.py: OAuth 1.0a, OAuth 2.0 PKCE and bearer authentication

    A shallow embedding of [tweepy/auth.py].  Python objects become records,
    methods become computations in a small state-and-exception monad, and
    everything the module imports (requests, requests_oauthlib, secrets,
    hashlib, urllib) is reached through the operations of a type class
    [Env], so that every theorem holds for all behaviours of the network
    and of those libraries. *)

From Stdlib Require Import Strings.Byte NArith.
From stdpp Require Import base option list strings gmap pretty.

Local Open Scope string_scope.
Set Warnings "-register-all".
Set Default Proof Using "Type".

(** ** Python values *)

(** The values that reach this module: [None], booleans, integers, floats
    (kept by their printed form), [str], [bytes], lists, dictionaries with
    string keys (what [json] decoding produces) and opaque instances of
    some other class, kept by the name of that class. *)
Inductive pyval : Type :=
| PNone
| PBool (b : bool)
| PInt (z : Z)
| PFloat (repr : string)
| PStr (s : string)
| PBytes (bs : list byte)
| PList (items : list pyval)
| PDict (items : list (string * pyval))
| PObj (cls : string).

(** [type(v).__name__] *)
Definition type_name (v : pyval) : string :=
  match v with
  | PNone => "NoneType"
  | PBool _ => "bool"
  | PInt _ => "int"
  | PFloat _ => "float"
  | PStr _ => "str"
  | PBytes _ => "bytes"
  | PList _ => "list"
  | PDict _ => "dict"
  | PObj cls => cls
  end.

(** [isinstance(v, (str, bytes))] *)
Definition isinstance_str_bytes (v : pyval) : bool :=
  match v with
  | PStr _ | PBytes _ => true
  | _ => false
  end.

Definition byte_eqb (a b : byte) : bool := N.eqb (Byte.to_N a) (Byte.to_N b).

(** [a == b] on the values above.  A [str] never equals a [bytes]. *)
Fixpoint pyval_eqb (a b : pyval) {struct a} : bool :=
  match a, b with
  | PNone, PNone => true
  | PBool x, PBool y => Bool.eqb x y
  | PInt x, PInt y => Z.eqb x y
  | PFloat x, PFloat y => String.eqb x y
  | PStr x, PStr y => String.eqb x y
  | PBytes x, PBytes y =>
      (fix go (l1 l2 : list byte) : bool :=
         match l1, l2 with
         | [], [] => true
         | c1 :: t1, c2 :: t2 => byte_eqb c1 c2 && go t1 t2
         | _, _ => false
         end) x y
  | PList x, PList y =>
      (fix go (l1 l2 : list pyval) : bool :=
         match l1, l2 with
         | [], [] => true
         | v1 :: t1, v2 :: t2 => pyval_eqb v1 v2 && go t1 t2
         | _, _ => false
         end) x y
  | PDict x, PDict y =>
      (fix go (l1 l2 : list (string * pyval)) : bool :=
         match l1, l2 with
         | [], [] => true
         | (k1, v1) :: t1, (k2, v2) :: t2 =>
             String.eqb k1 k2 && pyval_eqb v1 v2 && go t1 t2
         | _, _ => false
         end) x y
  | PObj x, PObj y => String.eqb x y
  | _, _ => false
  end.

(** ** Exceptions *)

(** [TweepyException] is built from one argument: a message, or the
    exception it wraps.  [LibraryError] stands for any exception class of
    the libraries (connection errors, [TokenRequestDenied], decoding
    errors...), all of which derive from [Exception]; [BaseOnly] stands for
    the classes that derive from [BaseException] alone ([KeyboardInterrupt],
    [SystemExit]), which [except Exception] does not catch. *)
Inductive exn : Type :=
| TweepyException (arg : exn_arg)
| TypeError (msg : string)
| KeyError (key : string)
| IndexError (msg : string)
| AttributeError (msg : string)
| UnicodeEncodeError
| UnicodeDecodeError
| NotImplementedError
| LibraryError (cls msg : string)
| BaseOnly (cls : string)
with exn_arg : Type :=
| ArgStr (msg : string)
| ArgExn (cause : exn).

(** [isinstance(e, Exception)] *)
Definition is_Exception (e : exn) : bool :=
  match e with
  | BaseOnly _ => false
  | _ => true
  end.

Inductive result (A : Type) : Type :=
| Ok (a : A)
| Raise (e : exn).
Arguments Ok {A} a.
Arguments Raise {A} e.

(** ** The computation monad

    A statement runs on a state [S] and either yields a value or raises;
    in both cases the state it leaves is kept, as attribute assignments
    made before an exception are in Python. *)
Definition Py (S A : Type) : Type := S -> result A * S.

Definition ret {S A} (a : A) : Py S A := fun s => (Ok a, s).

Definition raise {S A} (e : exn) : Py S A := fun s => (Raise e, s).

Definition bind {S A B} (m : Py S A) (k : A -> Py S B) : Py S B :=
  fun s =>
    match m s with
    | (Ok a, s') => k a s'
    | (Raise e, s') => (Raise e, s')
    end.

(** [try: body  except Exception as e: handler(e)] *)
Definition try_except {S A} (body : Py S A) (handler : exn -> Py S A) : Py S A :=
  fun s =>
    match body s with
    | (Ok a, s') => (Ok a, s')
    | (Raise e, s') => if is_Exception e then handler e s' else (Raise e, s')
    end.

(** An expression that may raise but touches no state. *)
Definition lift {S A} (r : result A) : Py S A := fun s => (r, s).

Declare Scope py_scope.
Delimit Scope py_scope with py.
Notation "x <- m ;; k" := (bind m (fun x => k))
  (at level 100, m at next level, right associativity) : py_scope.
Notation "m ;;; k" := (bind m (fun _ => k))
  (at level 100, right associativity) : py_scope.
Local Open Scope py_scope.

(** ** Text and bytes *)

Definition is_ascii_byte (b : byte) : bool := N.ltb (Byte.to_N b) 128.

(** [s.encode("ASCII")] *)
Definition encode_ascii (s : string) : result (list byte) :=
  let bs := String.list_byte_of_string s in
  if forallb is_ascii_byte bs then Ok bs else Raise UnicodeEncodeError.

(** [bs.decode('ascii')] *)
Definition decode_ascii (bs : list byte) : result string :=
  if forallb is_ascii_byte bs then Ok (String.string_of_list_byte bs)
  else Raise UnicodeDecodeError.

(** [bs.rstrip(chars)]: drops the longest suffix made of bytes of [chars]. *)
Fixpoint rstrip (chars : list byte) (bs : list byte) : list byte :=
  match bs with
  | [] => []
  | b :: t =>
      match rstrip chars t with
      | [] => if existsb (byte_eqb b) chars then [] else [b]
      | t' => b :: t'
      end
  end.

(** [s[:n]] on a [str] *)
Definition str_prefix (n : nat) (s : string) : string :=
  String.string_of_list_ascii (take n (String.list_ascii_of_string s)).

(** *** base64.urlsafe_b64encode

    The alphabet of RFC 4648 section 5, and the encoder as [binascii]
    computes it: bytes are shifted into an accumulator and each group of
    six bits, masked with [0x3f], indexes the table; a last group of one
    or two bytes is completed with '=' signs. *)
Definition URLSAFE_ALPHABET : list byte :=
  String.list_byte_of_string
    "ABCDEFGHIJKLMNOPQRSTUVWXYZabcdefghijklmnopqrstuvwxyz0123456789-_".

Definition BASE64_PAD : byte := x3d.

Definition table_b2a (i : N) : byte := nth (N.to_nat i) URLSAFE_ALPHABET x00.

Fixpoint urlsafe_b64encode (s : list byte) : list byte :=
  match s with
  | [] => []
  | [a] =>
      let n := Byte.to_N a in
      [ table_b2a (N.land (N.shiftr n 2) 63);
        table_b2a (N.shiftl (N.land n 3) 4);
        BASE64_PAD; BASE64_PAD ]
  | [a; b] =>
      let n := N.lor (N.shiftl (Byte.to_N a) 8) (Byte.to_N b) in
      [ table_b2a (N.land (N.shiftr n 10) 63);
        table_b2a (N.land (N.shiftr n 4) 63);
        table_b2a (N.shiftl (N.land n 15) 2);
        BASE64_PAD ]
  | a :: b :: c :: rest =>
      let n := N.lor (N.shiftl (N.lor (N.shiftl (Byte.to_N a) 8) (Byte.to_N b)) 8)
                     (Byte.to_N c) in
      table_b2a (N.land (N.shiftr n 18) 63)
        :: table_b2a (N.land (N.shiftr n 12) 63)
        :: table_b2a (N.land (N.shiftr n 6) 63)
        :: table_b2a (N.land n 63)
        :: urlsafe_b64encode rest
  end.

(** [str(v)], as an f-string formats a value.  The printed form of bytes,
    containers and arbitrary objects is left to [repr_other]. *)
Definition py_str (repr_other : pyval -> string) (v : pyval) : string :=
  match v with
  | PNone => "None"
  | PBool true => "True"
  | PBool false => "False"
  | PInt z => pretty z
  | PFloat r => r
  | PStr s => s
  | _ => repr_other v
  end.

(** Truth value of an optional string argument: [None] and [''] are false. *)
Definition truthy (a : option string) : bool :=
  match a with
  | Some s => negb (String.eqb s "")
  | None => false
  end.

(** ** Dictionaries *)

(** [d[k]] on a dictionary with string keys *)
Definition dict_getitem (d : gmap string pyval) (k : string) : result pyval :=
  match d !! k with
  | Some v => Ok v
  | None => Raise (KeyError k)
  end.

Fixpoint assoc {A} (k : string) (l : list (string * A)) : option A :=
  match l with
  | [] => None
  | (k', v) :: t => if String.eqb k k' then Some v else assoc k t
  end.

(** [data.get(k)]: only a dictionary has the method. *)
Definition py_get (data : pyval) (k : string) : result pyval :=
  match data with
  | PDict items => Ok (default PNone (assoc k items))
  | _ => Raise (AttributeError ("'" ++ type_name data ++ "' object has no attribute 'get'"))
  end.

(** [data[k]] with a string key *)
Definition py_getitem (data : pyval) (k : string) : result pyval :=
  match data with
  | PDict items =>
      match assoc k items with
      | Some v => Ok v
      | None => Raise (KeyError k)
      end
  | PList _ | PStr _ | PBytes _ =>
      Raise (TypeError (type_name data ++ " indices must be integers"))
  | _ => Raise (TypeError ("'" ++ type_name data ++ "' object is not subscriptable"))
  end.

(** The dictionary [parse_qs] returns: keys are [str] or [bytes] values,
    each bound to the list of the values given for it. *)
Definition qs_dict : Type := list (pyval * list pyval).

(** [credentials.get(k)] *)
Fixpoint qs_get (credentials : qs_dict) (k : pyval) : option (list pyval) :=
  match credentials with
  | [] => None
  | (k', vs) :: t => if pyval_eqb k' k then Some vs else qs_get t k
  end.

(** [x[0]] where [x] is the result of [credentials.get] *)
Definition first_item (x : option (list pyval)) : result pyval :=
  match x with
  | None => Raise (TypeError "'NoneType' object is not subscriptable")
  | Some [] => Raise (IndexError "list index out of range")
  | Some (v :: _) => Ok v
  end.

(** ** Objects of the libraries *)

(** [requests_oauthlib.OAuth1]: the request signer, known by the arguments
    it was built from. *)
Record OAuth1 : Type := mkOAuth1 {
  client_key : pyval;
  client_secret : pyval;
  resource_owner_key : pyval;
  resource_owner_secret : pyval;
  decoding : pyval
}.

(** Arguments of the [OAuth1Session] constructor *)
Record OAuth1Session_args : Type := mkOAuth1Session_args {
  s_client_key : pyval;
  s_client_secret : pyval;
  s_resource_owner_key : pyval;
  s_resource_owner_secret : pyval;
  s_verifier : pyval;
  s_callback_uri : pyval
}.

(** [requests.auth.HTTPBasicAuth] *)
Record HTTPBasicAuth : Type := mkHTTPBasicAuth {
  basic_username : pyval;
  basic_password : pyval
}.

(** The [auth=] argument of [requests.post] *)
Inductive auth_arg : Type :=
| AuthOAuth1 (signer : OAuth1)
| AuthTuple (user password : pyval).

Record post_args : Type := mkPost {
  post_url : string;
  post_auth : auth_arg;
  post_headers : list (string * pyval);
  post_data : list (string * pyval)
}.

(** [requests.Response], as far as this module reads it *)
Record Response : Type := mkResponse {
  status_code : Z;
  content : list byte
}.

(** Keyword arguments of [OAuth2Session.fetch_token] *)
Record fetch_token_args : Type := mkFetchTokenArgs {
  token_url : string;
  authorization_response : pyval;
  ft_auth : option HTTPBasicAuth;
  include_client_id : bool;
  ft_code_verifier : string
}.

(** ** The environment

    [W] is everything outside the process: the provider behind the network
    and the entropy pool.  The session types are the private states of the
    library objects; a library method receives that state with the world
    and returns both, with a value or an exception. *)
Class Env : Type := {
  W : Type;
  OAuth1Session : Type;
  OAuth2Session : Type;
  OAuth1Session_init : OAuth1Session_args -> result OAuth1Session;
  OAuth1Session_fetch_request_token :
    string -> Py (OAuth1Session * W) (gmap string pyval);
  OAuth1Session_authorization_url : string -> Py (OAuth1Session * W) string;
  OAuth1Session_fetch_access_token :
    string -> Py (OAuth1Session * W) (gmap string pyval);
  OAuth2Session_init : pyval -> pyval -> pyval -> result OAuth2Session;
  OAuth2Session_authorization_url :
    string -> list (string * pyval) -> Py (OAuth2Session * W) (string * string);
  OAuth2Session_fetch_token : fetch_token_args -> Py (OAuth2Session * W) pyval;
  requests_post : post_args -> Py W Response;
  Response_json : Response -> result pyval;
  parse_qs : list byte -> result qs_dict;
  sha256_digest : list byte -> list byte;
  os_urandom_byte : W -> byte * W;
  repr_other : pyval -> string
}.

(** What a method runs on: the object it mutates, the world, and the
    warnings emitted through the module's logger. *)
Record machine {E : Env} (M : Type) : Type := mkMachine {
  mem : M;
  world : W;
  warnings : list string
}.
Arguments mkMachine {_ _} _ _ _.
Arguments mem {_ _} _.
Arguments world {_ _} _.
Arguments warnings {_ _} _.

Section Primitives.
Context {E : Env}.

(** An attribute read *)
Definition getattr {M A} (f : M -> A) : Py (machine M) A :=
  fun m => (Ok (f (mem m)), m).

(** An attribute assignment *)
Definition setattr {M} (f : M -> M) : Py (machine M) unit :=
  fun m => (Ok tt, mkMachine (f (mem m)) (world m) (warnings m)).

(** A call that only involves the world *)
Definition call_world {M A} (op : Py W A) : Py (machine M) A :=
  fun m =>
    let '(r, w') := op (world m) in
    (r, mkMachine (mem m) w' (warnings m)).

(** [log.warning(msg)] *)
Definition log_warning {M} (msg : string) : Py (machine M) unit :=
  fun m => (Ok tt, mkMachine (mem m) (world m) (warnings m ++ [msg])).

(** [secrets.token_bytes(nbytes)] *)
Fixpoint token_bytes (nbytes : nat) : Py W (list byte) :=
  match nbytes with
  | O => ret []
  | S n =>
      fun w =>
        let '(b, w1) := os_urandom_byte w in
        match token_bytes n w1 with
        | (Ok bs, w2) => (Ok (b :: bs), w2)
        | (Raise e, w2) => (Raise e, w2)
        end
  end.

(** [secrets.token_urlsafe(nbytes)] *)
Definition token_urlsafe (nbytes : nat) : Py W string :=
  tok <- token_bytes nbytes ;;
  lift (decode_ascii (rstrip [BASE64_PAD] (urlsafe_b64encode tok))).
End Primitives.

Definition WARNING_MESSAGE : string :=
"Warning! Due to a Twitter API bug, signin_with_twitter
and access_type don't always play nice together. Details
https://dev.twitter.com/discussions/21281".

(** ** class AuthHandler *)
Module AuthHandler.
(** The base method only raises. *)
Definition apply_auth {S A} : Py S A := raise NotImplementedError.
End AuthHandler.

(** ** class OAuthHandler(AuthHandler) *)
Module OAuthHandler.
Section Methods.
Context {E : Env}.

Record t : Type := mk {
  consumer_key : pyval;
  consumer_secret : pyval;
  access_token : pyval;
  access_token_secret : pyval;
  callback : pyval;
  username : pyval;
  request_token : gmap string pyval;
  oauth : OAuth1Session
}.

Definition OAUTH_HOST : string := "api.twitter.com".
Definition OAUTH_ROOT : string := "/oauth/".

Definition with_access_token (v : pyval) (h : t) : t :=
  mk (consumer_key h) (consumer_secret h) v (access_token_secret h)
     (callback h) (username h) (request_token h) (oauth h).

Definition with_access_token_secret (v : pyval) (h : t) : t :=
  mk (consumer_key h) (consumer_secret h) (access_token h) v
     (callback h) (username h) (request_token h) (oauth h).

Definition with_request_token (d : gmap string pyval) (h : t) : t :=
  mk (consumer_key h) (consumer_secret h) (access_token h)
     (access_token_secret h) (callback h) (username h) d (oauth h).

Definition with_oauth (o : OAuth1Session) (h : t) : t :=
  mk (consumer_key h) (consumer_secret h) (access_token h)
     (access_token_secret h) (callback h) (username h) (request_token h) o.

(** A method call on [self.oauth]: the session object changes in place. *)
Definition call_oauth {A} (op : Py (OAuth1Session * W) A) : Py (machine t) A :=
  fun m =>
    let '(r, (o', w')) := op (oauth (mem m), world m) in
    (r, mkMachine (with_oauth o' (mem m)) w' (warnings m)).

(** The constructor runs before any handler exists, so on the world
    alone; the handler is what it returns. *)
Definition __init__ (consumer_key consumer_secret callback : pyval) : Py W t :=
  if negb (isinstance_str_bytes consumer_key) then
    raise (TypeError ("Consumer key must be string or bytes, not "
                      ++ type_name consumer_key))
  else if negb (isinstance_str_bytes consumer_secret) then
    raise (TypeError ("Consumer secret must be string or bytes, not "
                      ++ type_name consumer_secret))
  else
    o <- lift (OAuth1Session_init
                 (mkOAuth1Session_args consumer_key consumer_secret
                    PNone PNone PNone callback)) ;;
    ret (mk consumer_key consumer_secret PNone PNone callback PNone ∅ o).

Definition _get_oauth_url (endpoint : string) : string :=
  "https://" ++ OAUTH_HOST ++ OAUTH_ROOT ++ endpoint.

Definition apply_auth : Py (machine t) OAuth1 :=
  ck <- getattr consumer_key ;;
  cs <- getattr consumer_secret ;;
  tok <- getattr access_token ;;
  sec <- getattr access_token_secret ;;
  ret (mkOAuth1 ck cs tok sec PNone).

Definition _get_request_token (access_type : option string)
  : Py (machine t) (gmap string pyval) :=
  try_except
    (let url := _get_oauth_url "request_token" in
     let url :=
       if truthy access_type
       then url ++ "?x_auth_access_type=" ++ default "" access_type
       else url in
     call_oauth (OAuth1Session_fetch_request_token url))
    (fun e => raise (TweepyException (ArgExn e))).

Definition set_access_token (key secret : pyval) : Py (machine t) unit :=
  setattr (with_access_token key) ;;;
  setattr (with_access_token_secret secret).

Definition get_authorization_url (signin_with_twitter : bool)
    (access_type : option string) : Py (machine t) string :=
  try_except
    (url <- (if signin_with_twitter then
               (if truthy access_type then log_warning WARNING_MESSAGE
                else ret tt) ;;;
               ret (_get_oauth_url "authenticate")
             else ret (_get_oauth_url "authorize")) ;;
     tok <- _get_request_token access_type ;;
     setattr (with_request_token tok) ;;;
     call_oauth (OAuth1Session_authorization_url url))
    (fun e => raise (TweepyException (ArgExn e))).

Definition get_access_token (verifier : pyval) : Py (machine t) (pyval * pyval) :=
  try_except
    (let url := _get_oauth_url "access_token" in
     ck <- getattr consumer_key ;;
     cs <- getattr consumer_secret ;;
     rt <- getattr request_token ;;
     rok <- lift (dict_getitem rt "oauth_token") ;;
     rt <- getattr request_token ;;
     ros <- lift (dict_getitem rt "oauth_token_secret") ;;
     cb <- getattr callback ;;
     o <- lift (OAuth1Session_init
                  (mkOAuth1Session_args ck cs rok ros verifier cb)) ;;
     setattr (with_oauth o) ;;;
     resp <- call_oauth (OAuth1Session_fetch_access_token url) ;;
     tok <- lift (dict_getitem resp "oauth_token") ;;
     setattr (with_access_token tok) ;;;
     sec <- lift (dict_getitem resp "oauth_token_secret") ;;
     setattr (with_access_token_secret sec) ;;;
     tok <- getattr access_token ;;
     sec <- getattr access_token_secret ;;
     ret (tok, sec))
    (fun e => raise (TweepyException (ArgExn e))).

Definition get_xauth_access_token (username password : pyval)
  : Py (machine t) (pyval * pyval) :=
  try_except
    (let url := _get_oauth_url "access_token" in
     ck <- getattr consumer_key ;;
     cs <- getattr consumer_secret ;;
     let oauth := mkOAuth1 ck cs PNone PNone (PStr "utf-8") in
     r <- call_world
            (requests_post
               (mkPost url (AuthOAuth1 oauth)
                  [("x_auth_mode", PStr "client_auth");
                   ("x_auth_username", username);
                   ("x_auth_password", password)]
                  [])) ;;
     credentials <- lift (parse_qs (content r)) ;;
     tok <- lift (first_item (qs_get credentials (PStr "oauth_token"))) ;;
     sec <- lift (first_item (qs_get credentials (PStr "oauth_token_secret"))) ;;
     ret (tok, sec))
    (fun e => raise (TweepyException (ArgExn e))).
End Methods.
End OAuthHandler.

(** ** class OAuth2Handler(OAuth2Session) *)
Module OAuth2Handler.
Section Methods.
Context {E : Env}.

(** [base] is the state inherited from [OAuth2Session]; [code_verifier]
    is not an attribute until [get_authorization_url] assigns it. *)
Record t : Type := mk {
  base : OAuth2Session;
  auth : option HTTPBasicAuth;
  code_verifier : option string
}.

Definition AUTHORIZE_URL : string := "https://twitter.com/i/oauth2/authorize".
Definition TOKEN_URL : string := "https://api.twitter.com/2/oauth2/token".

Definition with_base (b : OAuth2Session) (h : t) : t :=
  mk b (auth h) (code_verifier h).

Definition with_code_verifier (v : string) (h : t) : t :=
  mk (base h) (auth h) (Some v).

(** A method inherited from [OAuth2Session], called on [self] *)
Definition call_super {A} (op : Py (OAuth2Session * W) A) : Py (machine t) A :=
  fun m =>
    let '(r, (b', w')) := op (base (mem m), world m) in
    (r, mkMachine (with_base b' (mem m)) w' (warnings m)).

(** [self.code_verifier] *)
Definition get_code_verifier : Py (machine t) string :=
  fun m =>
    match code_verifier (mem m) with
    | Some v => (Ok v, m)
    | None =>
        (Raise (AttributeError
                  "'OAuth2Handler' object has no attribute 'code_verifier'"), m)
    end.

Definition __init__ (client_id redirect_uri scope client_secret : pyval)
  : Py W t :=
  b <- lift (OAuth2Session_init client_id redirect_uri scope) ;;
  ret (mk b
         (match client_secret with
          | PNone => None
          | _ => Some (mkHTTPBasicAuth client_id client_secret)
          end)
         None).

Definition get_authorization_url : Py (machine t) string :=
  tok <- call_world (token_urlsafe 128) ;;
  setattr (with_code_verifier (str_prefix 128 tok)) ;;;
  v <- get_code_verifier ;;
  data <- lift (encode_ascii v) ;;
  let code_challenge :=
    rstrip [BASE64_PAD] (urlsafe_b64encode (sha256_digest data)) in
  r <- call_super
         (OAuth2Session_authorization_url AUTHORIZE_URL
            [("code_challenge", PBytes code_challenge);
             ("code_challenge_method", PStr "s256")]) ;;
  ret (fst r).

Definition fetch_token (authorization_response : pyval) : Py (machine t) pyval :=
  a <- getattr auth ;;
  v <- get_code_verifier ;;
  call_super
    (OAuth2Session_fetch_token
       (mkFetchTokenArgs TOKEN_URL authorization_response a true v)).
End Methods.
End OAuth2Handler.

(** ** Requests and their headers

    [request.headers] is a mutable mapping.  The module only assigns one
    item of it, so the mapping is an interface: item lookup, item
    assignment, and the relation telling when two keys name the same item
    (equality for a [dict], equality up to case for the
    [CaseInsensitiveDict] of [requests]). *)
Class MutableMapping (M : Type) : Type := {
  mm_get : M -> string -> option pyval;
  mm_set : M -> string -> pyval -> M;
  mm_same_key : string -> string -> bool
}.

(** What item assignment guarantees: the assigned key reads back the
    value, and keys naming another item read what they read before. *)
Class MappingLaws (M : Type) `{MutableMapping M} : Prop := {
  mm_get_set_same : forall (m : M) k v, mm_get (mm_set m k v) k = Some v;
  mm_get_set_other : forall (m : M) k k' v,
    mm_same_key k k' = false -> mm_get (mm_set m k v) k' = mm_get m k'
}.

(** A plain [dict] with string keys *)
#[export] Instance dict_mapping : MutableMapping (gmap string pyval) := {
  mm_get m k := m !! k;
  mm_set m k v := <[k := v]> m;
  mm_same_key k k' := String.eqb k k'
}.

Definition ascii_lower (c : Ascii.ascii) : Ascii.ascii :=
  let n := Ascii.N_of_ascii c in
  if (N.leb 65 n && N.leb n 90)%bool then Ascii.ascii_of_N (n + 32) else c.

Fixpoint lower (s : string) : string :=
  match s with
  | EmptyString => EmptyString
  | String c t => String (ascii_lower c) (lower t)
  end.

(** [requests.structures.CaseInsensitiveDict]: the store is keyed by the
    lowercased name and keeps the name as last written with the value. *)
Record CaseInsensitiveDict : Type := mkCID {
  _store : gmap string (string * pyval)
}.

#[export] Instance cid_mapping : MutableMapping CaseInsensitiveDict := {
  mm_get m k := snd <$> (_store m !! lower k);
  mm_set m k v := mkCID (<[lower k := (k, v)]> (_store m));
  mm_same_key k k' := String.eqb (lower k) (lower k')
}.

(** Objects live in a store and are passed by reference. *)
Definition ref : Type := positive.

Record Request (M : Type) : Type := mkRequest {
  req_method : string;
  req_url : string;
  headers : M;
  req_body : pyval
}.
Arguments mkRequest {M} _ _ _ _.
Arguments req_method {M} _.
Arguments req_url {M} _.
Arguments headers {M} _.
Arguments req_body {M} _.

(** What a reference may point to: a request, or an object of some other
    class, which has no [headers]. *)
Inductive object (M : Type) : Type :=
| ORequest (r : Request M)
| OOther (cls : string).
Arguments ORequest {M} r.
Arguments OOther {M} cls.

(** ** class OAuth2Bearer(AuthBase) *)
Module OAuth2Bearer.
Section Methods.
Context {E : Env} `{MutableMapping M}.

Record t : Type := mk { bearer_token : pyval }.

Definition __init__ (bearer_token : pyval) : t := mk bearer_token.

(** ['Bearer ' + x] *)
Definition str_add (s : string) (x : pyval) : result string :=
  match x with
  | PStr s' => Ok (s ++ s')
  | _ => Raise (TypeError ("can only concatenate str (not " ++ type_name x
                           ++ ") to str"))
  end.

(** [request.headers[key] = value] *)
Definition set_header (request : ref) (key : string) (value : pyval)
  : Py (machine (gmap ref (object M))) unit :=
  fun m =>
    match mem m !! request with
    | Some (ORequest r) =>
        let r' := mkRequest (req_method r) (req_url r)
                    (mm_set (headers r) key value) (req_body r) in
        (Ok tt, mkMachine (<[request := ORequest r']> (mem m))
                  (world m) (warnings m))
    | Some (OOther cls) =>
        (Raise (AttributeError ("'" ++ cls ++ "' object has no attribute 'headers'")), m)
    | None =>
        (Raise (AttributeError "object has no attribute 'headers'"), m)
    end.

Definition __call__ (self : t) (request : ref)
  : Py (machine (gmap ref (object M))) ref :=
  value <- lift (str_add "Bearer " (bearer_token self)) ;;
  set_header request "Authorization" (PStr value) ;;;
  ret request.
End Methods.
End OAuth2Bearer.

(** ** class AppAuthHandler(AuthHandler) *)
Module AppAuthHandler.
Section Methods.
Context {E : Env}.

Record t : Type := mk {
  consumer_key : pyval;
  consumer_secret : pyval;
  _bearer_token : pyval
}.

Definition OAUTH_HOST : string := "api.twitter.com".
Definition OAUTH_ROOT : string := "/oauth2/".

Definition _get_oauth_url (endpoint : string) : string :=
  "https://" ++ OAUTH_HOST ++ OAUTH_ROOT ++ endpoint.

Definition DQUOTE : string := String.string_of_list_byte [x22].

(** The message of the exception raised for a token type [token_type] *)
Definition unexpected_token_type (token_type : pyval) : string :=
  "Expected token_type to equal " ++ DQUOTE ++ "bearer" ++ DQUOTE ++ ", "
  ++ "but got " ++ py_str repr_other token_type ++ " instead".

Definition __init__ (consumer_key consumer_secret : pyval) : Py W t :=
  resp <- requests_post
            (mkPost (_get_oauth_url "token")
               (AuthTuple consumer_key consumer_secret)
               []
               [("grant_type", PStr "client_credentials")]) ;;
  data <- lift (Response_json resp) ;;
  token_type <- lift (py_get data "token_type") ;;
  if negb (pyval_eqb token_type (PStr "bearer")) then
    token_type <- lift (py_get data "token_type") ;;
    raise (TweepyException (ArgStr (unexpected_token_type token_type)))
  else
    bearer <- lift (py_getitem data "access_token") ;;
    ret (mk consumer_key consumer_secret bearer).

Definition apply_auth (self : t) : OAuth2Bearer.t :=
  OAuth2Bearer.__init__ (_bearer_token self).
End Methods.
End AppAuthHandler.

(** ** What the specification asks to recompute *)

Definition result_map {A B} (f : A -> B) (r : result A) : result B :=
  match r with
  | Ok a => Ok (f a)
  | Raise e => Raise e
  end.

(** The PKCE challenge of a verifier: the SHA-256 digest of the
    ASCII-encoded verifier, URL-safe base64 encoded, trailing '='
    stripped. *)
Definition recompute_challenge {E : Env} (verifier : string) : result (list byte) :=
  result_map
    (fun data => rstrip [BASE64_PAD] (urlsafe_b64encode (sha256_digest data)))
    (encode_ascii verifier).

(** Membership in the URL-safe alphabet *)
Definition is_urlsafe (b : byte) : bool := existsb (byte_eqb b) URLSAFE_ALPHABET.

Definition urlsafe_char (c : Ascii.ascii) : bool :=
  is_urlsafe (Ascii.byte_of_ascii c).

(** The verifier a call draws from the entropy of the world [w]:
    [secrets.token_urlsafe(128)[:128]] *)
Definition generate_verifier {E : Env} (w : W) : result string * W :=
  let '(r, w1) := token_urlsafe 128 w in
  (result_map (str_prefix 128) r, w1).

(** The keyword arguments [get_authorization_url] gives the library for a
    challenge *)
Definition pkce_kwargs (challenge : list byte) : list (string * pyval) :=
  [("code_challenge", PBytes challenge); ("code_challenge_method", PStr "s256")].

(** The URL [_get_request_token] posts to *)
Definition request_token_url (access_type : option string) : string :=
  if truthy access_type
  then OAuthHandler._get_oauth_url "request_token"
       ++ "?x_auth_access_type=" ++ default "" access_type
  else OAuthHandler._get_oauth_url "request_token".

(** The request [get_xauth_access_token] posts *)
Definition xauth_request {E : Env} (username password : pyval) (h : OAuthHandler.t)
  : post_args :=
  mkPost (OAuthHandler._get_oauth_url "access_token")
    (AuthOAuth1 (mkOAuth1 (OAuthHandler.consumer_key h) (OAuthHandler.consumer_secret h)
                   PNone PNone (PStr "utf-8")))
    [("x_auth_mode", PStr "client_auth");
     ("x_auth_username", username);
     ("x_auth_password", password)]
    [].

(** A field of the parsed xAuth body is absent, or present without a
    value. *)
Definition lacks (credentials : qs_dict) (field : string) : Prop :=
  qs_get credentials (PStr field) = None \/ qs_get credentials (PStr field) = Some [].


(** The arguments [get_access_token] builds its session from *)
Definition exchange_session_args {E : Env} (verifier : pyval) (h : OAuthHandler.t)
  : result OAuth1Session_args :=
  match dict_getitem (OAuthHandler.request_token h) "oauth_token",
        dict_getitem (OAuthHandler.request_token h) "oauth_token_secret" with
  | Ok rok, Ok ros =>
      Ok (mkOAuth1Session_args (OAuthHandler.consumer_key h)
            (OAuthHandler.consumer_secret h) rok ros verifier (OAuthHandler.callback h))
  | Raise e, _ => Raise e
  | _, Raise e => Raise e
  end.

(** The request the [AppAuthHandler] constructor posts *)
Definition token_request (consumer_key consumer_secret : pyval) : post_args :=
  mkPost (AppAuthHandler._get_oauth_url "token")
    (AuthTuple consumer_key consumer_secret)
    []
    [("grant_type", PStr "client_credentials")].

(** A store holding one request with the given headers *)
Definition one_request {M : Type} (h : M) : gmap ref (object M) :=
  {[ 1%positive := ORequest (mkRequest "GET" "https://api.twitter.com/2/tweets" h PNone) ]}.

(** ** A scripted environment

    A provider that answers every call with a canned result: sessions
    remember the arguments they were built from, the world counts the
    interactions and the bytes drawn, and URLs get their parameters
    appended verbatim.  It gives the theorems concrete runs. *)
Record script : Type := mkScript {
  on_request_token : result (gmap string pyval);
  on_access_token : result (gmap string pyval);
  on_post : result Response;
  on_json : result pyval;
  on_parse_qs : result qs_dict;
  on_fetch_token : result pyval
}.

Definition text_of (v : pyval) : string :=
  match v with
  | PBytes bs => String.string_of_list_byte bs
  | _ => py_str (fun _ => "?") v
  end.

Fixpoint query_of (params : list (string * pyval)) : string :=
  match params with
  | [] => ""
  | (k, v) :: t => "&" ++ k ++ "=" ++ text_of v ++ query_of t
  end.

Definition scripted_byte (n : nat) : byte :=
  default x00 (Byte.of_N (N.of_nat (7 * n + 3) mod 256)).

Definition scripted (p : script) : Env := {|
  W := nat;
  OAuth1Session := OAuth1Session_args;
  OAuth2Session := unit;
  OAuth1Session_init args := Ok args;
  OAuth1Session_fetch_request_token url :=
    fun '(s, w) =>
      match on_request_token p with
      | Ok tok =>
          (Ok tok,
           (mkOAuth1Session_args (s_client_key s) (s_client_secret s)
              (default PNone (tok !! "oauth_token"))
              (default PNone (tok !! "oauth_token_secret"))
              (s_verifier s) (s_callback_uri s), S w))
      | Raise e => (Raise e, (s, S w))
      end;
  OAuth1Session_authorization_url url :=
    fun '(s, w) =>
      (Ok (url ++ "?oauth_token=" ++ text_of (s_resource_owner_key s)), (s, w));
  OAuth1Session_fetch_access_token url := fun '(s, w) => (on_access_token p, (s, S w));
  OAuth2Session_init _ _ _ := Ok tt;
  OAuth2Session_authorization_url url kwargs :=
    fun '(s, w) => (Ok (url ++ "?response_type=code" ++ query_of kwargs, "state"), (s, w));
  OAuth2Session_fetch_token args := fun '(s, w) => (on_fetch_token p, (s, S w));
  requests_post args := fun w => (on_post p, S w);
  Response_json _ := on_json p;
  parse_qs _ := on_parse_qs p;
  sha256_digest data := take 32 (data ++ replicate 32 x00);
  os_urandom_byte w := (scripted_byte w, S w);
  repr_other _ := "?"
|}.

Definition token_pair (k s : string) : gmap string pyval :=
  <["oauth_token" := PStr k]> (<["oauth_token_secret" := PStr s]> ∅).

(** A provider that grants everything *)
Definition granting : script :=
  mkScript (Ok (token_pair "rt" "rs")) (Ok (token_pair "at" "as"))
    (Ok (mkResponse 200 (String.list_byte_of_string "oauth_token=at&oauth_token_secret=as")))
    (Ok (PDict [("token_type", PStr "bearer"); ("access_token", PStr "T")]))
    (Ok [(PBytes (String.list_byte_of_string "oauth_token"),
          [PBytes (String.list_byte_of_string "at")]);
         (PBytes (String.list_byte_of_string "oauth_token_secret"),
          [PBytes (String.list_byte_of_string "as")])])
    (Ok (PDict [("token_type", PStr "bearer"); ("access_token", PStr "T")])).

(** A provider that refuses everything *)
Definition refusing : script :=
  let denied := LibraryError "TokenRequestDenied" "Token request failed with code 401" in
  mkScript (Raise denied) (Raise denied)
    (Raise (LibraryError "ConnectionError" "connection refused"))
    (Ok (PDict [("token_type", PStr "mac"); ("access_token", PStr "T")]))
    (Ok [(PStr "oauth_token", [PStr "at"])])
    (Raise (LibraryError "InvalidGrantError" "invalid_grant")).

(** A provider that answers the application-only request with a MAC token
    and the xAuth request with a body lacking [oauth_token_secret] *)
Definition odd : script :=
  mkScript (Ok (token_pair "rt" "rs")) (Ok (token_pair "at" "as"))
    (Ok (mkResponse 200 (String.list_byte_of_string "oauth_token=at")))
    (Ok (PDict [("token_type", PStr "mac"); ("access_token", PStr "T")]))
    (Ok [(PStr "oauth_token", [PStr "at"])])
    (Ok PNone).

(** A provider whose access-token answer lacks [oauth_token_secret], whose
    xAuth body parses to [str] keys, and whose application-only answer
    carries a number as access token *)
Definition halfway : script :=
  mkScript (Ok (token_pair "rt" "rs"))
    (Ok (<["oauth_token" := PStr "at"]> ∅))
    (Ok (mkResponse 200 (String.list_byte_of_string "oauth_token=at&oauth_token_secret=as")))
    (Ok (PDict [("token_type", PStr "bearer"); ("access_token", PInt 5)]))
    (Ok [(PStr "oauth_token", [PStr "at"; PStr "at2"]);
         (PStr "oauth_token_secret", [PStr "as"])])
    (Ok PNone).

(** A handler that holds the request token [("rt", "rs")] *)
Definition pending (p : script) : @machine (scripted p) (@OAuthHandler.t (scripted p)) :=
  @mkMachine (scripted p) _
    (@OAuthHandler.mk (scripted p) (PStr "ck") (PStr "cs") PNone PNone PNone PNone
       (token_pair "rt" "rs")
       (mkOAuth1Session_args (PStr "ck") (PStr "cs") PNone PNone PNone PNone))
    O [].

(** A handler that has not fetched a request token yet *)
Definition unauthenticated (p : script)
  : @machine (scripted p) (@OAuthHandler.t (scripted p)) :=
  @mkMachine (scripted p) _
    (@OAuthHandler.mk (scripted p) (PStr "ck") (PStr "cs") PNone PNone PNone PNone ∅
       (mkOAuth1Session_args (PStr "ck") (PStr "cs") PNone PNone PNone PNone))
    O [].

(** A PKCE handler, with or without a verifier left by an earlier call *)
Definition pkce_handler (p : script) (old : option string)
  : @machine (scripted p) (@OAuth2Handler.t (scripted p)) :=
  @mkMachine (scripted p) _ (@OAuth2Handler.mk (scripted p) tt None old) O [].

(** * Properties *)

(** ** The monad *)

Lemma byte_eqb_eq a b : byte_eqb a b = true <-> a = b.
Proof.
  unfold byte_eqb. rewrite N.eqb_eq. split; [|by intros ->].
  intros Hab. apply (f_equal Byte.of_N) in Hab.
  rewrite !Byte.of_to_N in Hab. by injection Hab.
Qed.


(** What the body raises, the [try] wraps, keeping the state. *)
Lemma try_except_raise {S A} (body : Py S A) (s s' : S) (c : exn) :
  body s = (Raise c, s') -> is_Exception c = true ->
  try_except body (fun c => raise (TweepyException (ArgExn c))) s
  = (Raise (TweepyException (ArgExn c)), s').
Proof. unfold try_except, raise. by intros -> ->. Qed.

Lemma try_except_ok {S A} (body : Py S A) (h : exn -> Py S A) (s s' : S) (a : A) :
  body s = (Ok a, s') -> try_except body h s = (Ok a, s').
Proof. unfold try_except. by intros ->. Qed.

(** The state a [try] leaves is the state its body leaves when the handler
    only raises. *)
Lemma try_except_state {S A} (body : Py S A) (f : exn -> exn) (s : S) :
  snd (try_except body (fun c => raise (f c)) s) = snd (body s).
Proof.
  unfold try_except, raise. destruct (body s) as [[a|c] s']; [done|].
  by destruct (is_Exception c).
Qed.

(** ** Base64 and the verifier *)

Lemma list_ind3 {A} (P : list A -> Prop) :
  P [] -> (forall a, P [a]) -> (forall a b, P [a; b]) ->
  (forall a b c l, P l -> P (a :: b :: c :: l)) ->
  forall l, P l.
Proof.
  intros H0 H1 H2 H3 l.
  enough (P l /\ (forall a, P (a :: l)) /\ (forall a b, P (a :: b :: l))) by tauto.
  induction l as [|x l (IH0 & IH1 & IH2)]; [by auto|].
  repeat split; auto.
Qed.

Lemma table_b2a_urlsafe (i : N) : (i < 64)%N -> is_urlsafe (table_b2a i) = true.
Proof.
  intros Hi. unfold table_b2a.
  assert (N.to_nat i < 64) as Hn by lia.
  generalize dependent (N.to_nat i). intros n Hn.
  do 64 (destruct n as [|n]; [reflexivity|]). lia.
Qed.

Lemma land_63_lt (x : N) : (N.land x 63 < 64)%N.
Proof. change 63%N with (N.ones 6). rewrite N.land_ones. by apply N.mod_lt. Qed.

Lemma shiftl_land_3_lt (x : N) : (N.shiftl (N.land x 3) 4 < 64)%N.
Proof.
  change 3%N with (N.ones 2). rewrite N.land_ones, N.shiftl_mul_pow2.
  pose proof (N.mod_lt x (2 ^ 2)) as Hlt. change (2 ^ 2)%N with 4%N in *.
  change (2 ^ 4)%N with 16%N. lia.
Qed.

Lemma shiftl_land_15_lt (x : N) : (N.shiftl (N.land x 15) 2 < 64)%N.
Proof.
  change 15%N with (N.ones 4). rewrite N.land_ones, N.shiftl_mul_pow2.
  pose proof (N.mod_lt x (2 ^ 4)) as Hlt. change (2 ^ 4)%N with 16%N in *.
  change (2 ^ 2)%N with 4%N. lia.
Qed.

Create HintDb b64.
#[local] Hint Resolve table_b2a_urlsafe land_63_lt shiftl_land_3_lt
  shiftl_land_15_lt : b64.

(** The encoding is a run of alphabet characters, four for every three
    bytes rounded up to what the bits need, followed by the padding. *)
Lemma urlsafe_b64encode_shape (bs : list byte) :
  exists data k,
    urlsafe_b64encode bs = (data ++ replicate k BASE64_PAD)%list
    /\ forallb is_urlsafe data = true
    /\ length data = (4 * length bs + 2) / 3.
Proof.
  induction bs as [|a|a b|a b c l (data & k & Henc & Hsafe & Hlen)] using list_ind3.
  - by exists [], 0.
  - eexists [_; _], 2. split; [reflexivity|]. split; [|reflexivity].
    cbn [forallb]. rewrite !table_b2a_urlsafe; auto with b64.
  - eexists [_; _; _], 1. split; [reflexivity|]. split; [|reflexivity].
    cbn [forallb]. rewrite !table_b2a_urlsafe; auto with b64.
  - eexists (_ :: _ :: _ :: _ :: data), k. split; [|split].
    + cbn [urlsafe_b64encode app]. rewrite Henc. reflexivity.
    + cbn [forallb]. rewrite !table_b2a_urlsafe, Hsafe; auto with b64.
    + cbn [length]. rewrite Hlen.
      replace (4 * S (S (S (length l))) + 2) with (4 * length l + 2 + 4 * 3) by lia.
      rewrite Nat.div_add by lia. lia.
Qed.

Lemma is_urlsafe_not_pad (b : byte) :
  is_urlsafe b = true -> existsb (byte_eqb b) [BASE64_PAD] = false.
Proof.
  intros Hb. cbn [existsb]. destruct (byte_eqb b BASE64_PAD) eqn:Heq; [|done].
  apply byte_eqb_eq in Heq. subst b. discriminate Hb.
Qed.

Lemma is_urlsafe_ascii (b : byte) : is_urlsafe b = true -> is_ascii_byte b = true.
Proof. destruct b; first [reflexivity | discriminate]. Qed.

Lemma rstrip_replicate (c : byte) (k : nat) : rstrip [c] (replicate k c) = [].
Proof.
  induction k as [|k IH]; [done|]. cbn [replicate rstrip]. rewrite IH.
  cbn [existsb]. by rewrite (proj2 (byte_eqb_eq c c) eq_refl).
Qed.

(** Stripping the padding of a padded run of alphabet characters gives
    the run back. *)
Lemma rstrip_padding (data : list byte) (k : nat) :
  forallb is_urlsafe data = true ->
  rstrip [BASE64_PAD] (data ++ replicate k BASE64_PAD)%list = data.
Proof.
  induction data as [|b data IH]; intros Hsafe.
  - apply rstrip_replicate.
  - cbn [forallb] in Hsafe. apply andb_prop in Hsafe as [Hb Hdata].
    cbn [app rstrip]. rewrite (IH Hdata).
    destruct data; [|done]. by rewrite (is_urlsafe_not_pad b Hb).
Qed.

(** The unpadded encoding *)
Lemma stripped_b64 (bs : list byte) :
  forallb is_urlsafe (rstrip [BASE64_PAD] (urlsafe_b64encode bs)) = true
  /\ length (rstrip [BASE64_PAD] (urlsafe_b64encode bs)) = (4 * length bs + 2) / 3.
Proof.
  destruct (urlsafe_b64encode_shape bs) as (data & k & -> & Hsafe & Hlen).
  by rewrite (rstrip_padding data k Hsafe).
Qed.

Lemma forallb_urlsafe_ascii (l : list byte) :
  forallb is_urlsafe l = true -> forallb is_ascii_byte l = true.
Proof.
  induction l as [|b l IH]; [done|]. cbn [forallb].
  intros [Hb Hl]%andb_prop. by rewrite (is_urlsafe_ascii b Hb), (IH Hl).
Qed.

Lemma forallb_take {A} (f : A -> bool) (n : nat) (l : list A) :
  forallb f l = true -> forallb f (take n l) = true.
Proof.
  revert n. induction l as [|x l IH]; intros [|n]; try done.
  cbn [forallb take firstn]. intros [Hx Hl]%andb_prop. by rewrite Hx, (IH n Hl).
Qed.

Lemma length_string_of_list_byte (l : list byte) :
  String.length (String.string_of_list_byte l) = length l.
Proof.
  unfold String.string_of_list_byte.
  induction l as [|b l IH]; [done|]. cbn. by rewrite IH.
Qed.

Lemma str_prefix_bytes (n : nat) (l : list byte) :
  str_prefix n (String.string_of_list_byte l) = String.string_of_list_byte (take n l).
Proof.
  unfold str_prefix, String.string_of_list_byte.
  by rewrite String.list_ascii_of_string_of_list_ascii, List.firstn_map.
Qed.

Lemma urlsafe_chars_of_bytes (l : list byte) :
  forallb is_urlsafe l = true ->
  forallb urlsafe_char (String.list_ascii_of_string (String.string_of_list_byte l)) = true.
Proof.
  unfold String.string_of_list_byte.
  rewrite String.list_ascii_of_string_of_list_ascii.
  induction l as [|b l IH]; [done|]. cbn [forallb List.map].
  intros [Hb Hl]%andb_prop. unfold urlsafe_char at 1.
  by rewrite Ascii.byte_of_ascii_of_byte, Hb, (IH Hl).
Qed.

Lemma encode_ascii_of_bytes (l : list byte) :
  forallb is_urlsafe l = true ->
  encode_ascii (String.string_of_list_byte l) = Ok l.
Proof.
  intros Hl. unfold encode_ascii.
  by rewrite String.list_byte_of_string_of_list_byte, (forallb_urlsafe_ascii l Hl).
Qed.

Section Verifier.
Context {E : Env}.

(** Drawing [n] bytes never fails and yields [n] bytes. *)
Lemma token_bytes_ok (n : nat) (w : W) :
  exists bs, token_bytes n w = (Ok bs, snd (token_bytes n w)) /\ length bs = n.
Proof.
  revert w. induction n as [|n IH]; intros w; [by exists []|].
  cbn [token_bytes]. destruct (os_urandom_byte w) as [b w1].
  destruct (IH w1) as (bs & Hrun & Hlen). rewrite Hrun.
  exists (b :: bs). cbn [length]. by rewrite Hlen.
Qed.

(** The verifier of a call: 128 characters of the alphabet, whose ASCII
    encoding is the bytes they were decoded from. *)
Lemma generate_verifier_ok (w : W) :
  exists v,
    generate_verifier w = (Ok v, snd (token_bytes 128 w))
    /\ String.length v = 128
    /\ forallb urlsafe_char (String.list_ascii_of_string v) = true
    /\ encode_ascii v = Ok (String.list_byte_of_string v).
Proof.
  destruct (token_bytes_ok 128 w) as (bs & Hrun & Hlen).
  destruct (stripped_b64 bs) as [Hsafe Hlen'].
  set (data := rstrip [BASE64_PAD] (urlsafe_b64encode bs)) in *.
  exists (String.string_of_list_byte (take 128 data)).
  assert (forallb is_urlsafe (take 128 data) = true) as Htake
    by by apply forallb_take.
  split; [|split; [|split]].
  - unfold generate_verifier, token_urlsafe, bind, lift, decode_ascii.
    rewrite Hrun. fold data.
    rewrite (forallb_urlsafe_ascii data Hsafe). cbn [result_map].
    by rewrite str_prefix_bytes.
  - rewrite length_string_of_list_byte, length_take, Hlen', Hlen. reflexivity.
  - by apply urlsafe_chars_of_bytes.
  - rewrite String.list_byte_of_string_of_list_byte.
    by apply encode_ascii_of_bytes.
Qed.
End Verifier.

(** ** OAuth2Handler *)

(** One call of [get_authorization_url], step by step: it draws a
    verifier, stores it, and returns what the library's
    [authorization_url] yields for the challenge recomputed from it. *)
Lemma get_authorization_url_run {E : Env} (m : machine OAuth2Handler.t) :
  exists v c,
    generate_verifier (world m) = (Ok v, snd (token_bytes 128 (world m)))
    /\ String.length v = 128
    /\ forallb urlsafe_char (String.list_ascii_of_string v) = true
    /\ recompute_challenge v = Ok c
    /\ OAuth2Handler.get_authorization_url m =
       let '(r, (b', w')) :=
         OAuth2Session_authorization_url OAuth2Handler.AUTHORIZE_URL (pkce_kwargs c)
           (OAuth2Handler.base (mem m), snd (token_bytes 128 (world m))) in
       (result_map fst r,
        mkMachine (OAuth2Handler.mk b' (OAuth2Handler.auth (mem m)) (Some v))
          w' (warnings m)).
Proof.
  destruct (generate_verifier_ok (world m)) as (v & Hgen & Hlen & Hsafe & Henc).
  exists v, (rstrip [BASE64_PAD]
               (urlsafe_b64encode (sha256_digest (String.list_byte_of_string v)))).
  split; [done|]. split; [done|]. split; [done|]. split.
  { unfold recompute_challenge. by rewrite Henc. }
  unfold generate_verifier in Hgen.
  unfold OAuth2Handler.get_authorization_url, bind, call_world.
  destruct (token_urlsafe 128 (world m)) as [[tok|e] w1]; cbn [result_map] in Hgen;
    [|discriminate Hgen].
  injection Hgen as Hv Hw. subst v w1.
  unfold setattr, OAuth2Handler.get_code_verifier, OAuth2Handler.with_code_verifier,
    lift, OAuth2Handler.call_super, OAuth2Handler.with_base, ret.
  cbn [mem world warnings OAuth2Handler.code_verifier OAuth2Handler.base
       OAuth2Handler.auth].
  rewrite Henc. unfold pkce_kwargs.
  destruct (OAuth2Session_authorization_url _ _ _) as [[[u st]|e] [b' w']]; reflexivity.
Qed.

(** C1: in every call of [get_authorization_url] the verifier left on the
    handler and the URL returned agree: the URL is the one the library
    builds when given, as [code_challenge], the challenge recomputed from
    the stored verifier (SHA-256 of its ASCII encoding, URL-safe base64,
    padding stripped), with [code_challenge_method] set to s256. *)
Theorem pkce_challenge_matches_verifier {E : Env} (m : machine OAuth2Handler.t) :
  exists v c,
    OAuth2Handler.code_verifier (mem (snd (OAuth2Handler.get_authorization_url m)))
    = Some v
    /\ recompute_challenge v = Ok c
    /\ fst (OAuth2Handler.get_authorization_url m)
       = result_map fst
           (fst (OAuth2Session_authorization_url OAuth2Handler.AUTHORIZE_URL
                   [("code_challenge", PBytes c);
                    ("code_challenge_method", PStr "s256")]
                   (OAuth2Handler.base (mem m), snd (token_bytes 128 (world m))))).
Proof.
  destruct (get_authorization_url_run m) as (v & c & _ & _ & _ & Hc & Hrun).
  exists v, c.
  rewrite Hrun. unfold pkce_kwargs.
  destruct (OAuth2Session_authorization_url _ _ _) as [r [b' w']]. by cbn.
Qed.


(** With the scripted library, which appends the parameters verbatim, the
    challenge can be read in the URL itself. *)
Example pkce_url_scripted :
  fst (@OAuth2Handler.get_authorization_url (scripted granting)
         (pkce_handler granting (Some "old")))
  = Ok ("https://twitter.com/i/oauth2/authorize?response_type=code&code_challenge="
        ++ "QXdvUkdCOG1MVFE3UWtsUVYxNWxiSE42Z1lpUGxwMms"
        ++ "&code_challenge_method=s256")
  /\ result_map String.string_of_list_byte
       (@recompute_challenge (scripted granting)
          ("AwoRGB8mLTQ7QklQV15lbHN6gYiPlp2kq7K5wMfO1dzj6vH4_wYNFBsiKTA3PkVMU1phaG92"
           ++ "fYSLkpmgp661vMPK0djf5u30-wIJEBceJSwzOkFIT1ZdZGtyeYCHjpWc"))
     = Ok "QXdvUkdCOG1MVFE3UWtsUVYxNWxiSE42Z1lpUGxwMms"
  /\ OAuth2Handler.code_verifier
       (mem (snd (@OAuth2Handler.get_authorization_url (scripted granting)
                    (pkce_handler granting (Some "old")))))
     = Some ("AwoRGB8mLTQ7QklQV15lbHN6gYiPlp2kq7K5wMfO1dzj6vH4_wYNFBsiKTA3PkVMU1phaG92"
             ++ "fYSLkpmgp661vMPK0djf5u30-wIJEBceJSwzOkFIT1ZdZGtyeYCHjpWc").
Proof. repeat split; vm_compute; reflexivity. Qed.

(** ** OAuthHandler *)

(** C9: [set_access_token(k, s)] returns without touching the world or the
    log, accepts any two values, and [apply_auth()] called next returns the
    signer built from the consumer credentials and the pair [(k, s)]. *)
Theorem set_access_token_then_apply_auth {E : Env}
    (k s : pyval) (m : machine OAuthHandler.t) :
  exists m',
    OAuthHandler.set_access_token k s m = (Ok tt, m')
    /\ world m' = world m
    /\ warnings m' = warnings m
    /\ OAuthHandler.apply_auth m'
       = (Ok (mkOAuth1 (OAuthHandler.consumer_key (mem m))
                (OAuthHandler.consumer_secret (mem m)) k s PNone), m').
Proof. eexists. repeat split. Qed.

(** C10: a consumer key, or failing that a consumer secret, that is
    neither [str] nor [bytes] makes the constructor raise a [TypeError]
    naming the type of the argument; no handler is returned and the world
    is untouched. *)
Theorem init_rejects_non_string_credentials {E : Env}
    (consumer_key consumer_secret callback : pyval) (w : W) :
  (isinstance_str_bytes consumer_key = false ->
   OAuthHandler.__init__ consumer_key consumer_secret callback w
   = (Raise (TypeError ("Consumer key must be string or bytes, not "
                        ++ type_name consumer_key)), w))
  /\ (isinstance_str_bytes consumer_key = true ->
      isinstance_str_bytes consumer_secret = false ->
      OAuthHandler.__init__ consumer_key consumer_secret callback w
      = (Raise (TypeError ("Consumer secret must be string or bytes, not "
                           ++ type_name consumer_secret)), w)).
Proof.
  unfold OAuthHandler.__init__. split.
  - by intros ->.
  - by intros -> ->.
Qed.

Lemma init_rejects_non_string_credentials_witness :
  @OAuthHandler.__init__ (scripted granting) (PInt 3) (PStr "cs") PNone O
  = (Raise (TypeError "Consumer key must be string or bytes, not int"), O)
  /\ @OAuthHandler.__init__ (scripted granting) (PStr "ck") PNone PNone O
     = (Raise (TypeError "Consumer secret must be string or bytes, not NoneType"), O).
Proof.
  split.
  - apply (proj1 (@init_rejects_non_string_credentials (scripted granting)
                    (PInt 3) (PStr "cs") PNone O)).
    reflexivity.
  - apply (proj2 (@init_rejects_non_string_credentials (scripted granting)
                    (PStr "ck") PNone PNone O)); reflexivity.
Defined.

(** Runs a method by cases on everything it calls. *)
Ltac run_py :=
  repeat (cbn [fst snd mem world warnings] in *;
          match goal with
          | |- context [match ?x with _ => _ end] =>
              lazymatch x with
              | context [match _ with _ => _ end] => fail
              | _ => destruct x eqn:?
              end
          end).

Lemma get_request_token_run {E : Env} (access_type : option string)
    (m : machine OAuthHandler.t) :
  OAuthHandler._get_request_token access_type m =
  let '(r, (o', w')) :=
    OAuth1Session_fetch_request_token (request_token_url access_type)
      (OAuthHandler.oauth (mem m), world m) in
  let m' := mkMachine (OAuthHandler.with_oauth o' (mem m)) w' (warnings m) in
  match r with
  | Ok tok => (Ok tok, m')
  | Raise e =>
      if is_Exception e then (Raise (TweepyException (ArgExn e)), m')
      else (Raise e, m')
  end.
Proof.
  unfold OAuthHandler._get_request_token, try_except, OAuthHandler.call_oauth,
    request_token_url, raise.
  destruct (truthy access_type);
    destruct (OAuth1Session_fetch_request_token _ _) as [[tok|e] [o' w']]; reflexivity.
Qed.

(** C7, as the code has it: [_get_request_token] returns the token the
    provider sent and leaves the handler's [request_token] as it was; it is
    [get_authorization_url] that stores the token returned by the
    request-token step, before it builds the URL. *)
Theorem request_token_returned_then_stored {E : Env}
    (access_type : option string) (m : machine OAuthHandler.t) :
  OAuthHandler.request_token (mem (snd (OAuthHandler._get_request_token access_type m)))
  = OAuthHandler.request_token (mem m)
  /\ (forall tok,
       fst (OAuthHandler._get_request_token access_type m) = Ok tok ->
       fst (OAuth1Session_fetch_request_token (request_token_url access_type)
              (OAuthHandler.oauth (mem m), world m)) = Ok tok)
  /\ (forall signin_with_twitter tok,
       fst (OAuth1Session_fetch_request_token (request_token_url access_type)
              (OAuthHandler.oauth (mem m), world m)) = Ok tok ->
       OAuthHandler.request_token
         (mem (snd (OAuthHandler.get_authorization_url signin_with_twitter
                      access_type m)))
       = tok).
Proof.
  split; [|split].
  - rewrite get_request_token_run.
    destruct (OAuth1Session_fetch_request_token _ _) as [[tok|e] [o' w']]; cbn;
      [done|]. by destruct (is_Exception e).
  - intros tok. rewrite get_request_token_run.
    destruct (OAuth1Session_fetch_request_token _ _) as [[tok'|e] [o' w']]; cbn;
      [done|]. by destruct (is_Exception e).
  - intros signin tok Hfetch.
    unfold OAuthHandler.get_authorization_url.
    rewrite try_except_state. unfold bind at 1.
    assert (forall m0 : machine OAuthHandler.t,
              mem m0 = mem m -> world m0 = world m ->
              OAuthHandler.request_token
                (mem (snd ((tok0 <- OAuthHandler._get_request_token access_type ;;
                            setattr (OAuthHandler.with_request_token tok0) ;;;
                            OAuthHandler.call_oauth
                              (OAuth1Session_authorization_url
                                 (OAuthHandler._get_oauth_url
                                    (if signin then "authenticate" else "authorize"))))
                             m0)))
              = tok) as Hrest.
    { intros m0 Hmem Hworld. unfold bind at 1. rewrite get_request_token_run.
      rewrite Hmem, Hworld.
      destruct (OAuth1Session_fetch_request_token _ _) as [[tok'|e] [o' w']];
        cbn in Hfetch; [|discriminate Hfetch].
      injection Hfetch as ->.
      unfold bind, setattr, OAuthHandler.call_oauth. cbn [mem world warnings].
      destruct (OAuth1Session_authorization_url _ _) as [r [o'' w'']]. reflexivity. }
    destruct signin.
    + unfold bind at 1. destruct (truthy access_type).
      * unfold log_warning, ret. cbn -[OAuthHandler._get_request_token].
        by apply Hrest.
      * unfold ret. cbn -[OAuthHandler._get_request_token]. by apply Hrest.
    + unfold ret. by apply Hrest.
Qed.

Lemma request_token_returned_then_stored_witness :
  OAuthHandler.request_token
    (mem (snd (@OAuthHandler.get_authorization_url (scripted granting) true
                 (Some "read") (unauthenticated granting))))
  = token_pair "rt" "rs".
Proof.
  apply (proj2 (proj2 (@request_token_returned_then_stored (scripted granting)
                         (Some "read") (unauthenticated granting)))).
  reflexivity.
Defined.

(** C7 as stated fails: a successful [_get_request_token] returns the
    token pair but the handler's [request_token] is still empty. *)
Lemma get_request_token_does_not_store :
  let run :=
    @OAuthHandler._get_request_token (scripted granting) None
      (unauthenticated granting) in
  fst run = Ok (token_pair "rt" "rs")
  /\ OAuthHandler.request_token (mem (snd run)) !! "oauth_token" = None
  /\ token_pair "rt" "rs" !! "oauth_token" = Some (PStr "rt")
  /\ Ok (OAuthHandler.request_token (mem (snd run))) <> fst run.
Proof.
  repeat split; try (vm_compute; reflexivity).
  intros Heq.
  assert (OAuthHandler.request_token
            (mem (snd (@OAuthHandler._get_request_token (scripted granting) None
                         (unauthenticated granting))))
          = token_pair "rt" "rs") as Heq'.
  { change (fst (@OAuthHandler._get_request_token (scripted granting) None
                   (unauthenticated granting)))
      with (@Ok (gmap string pyval) (token_pair "rt" "rs")) in Heq.
    by injection Heq. }
  apply (f_equal (fun d : gmap string pyval => d !! "oauth_token")) in Heq'.
  vm_compute in Heq'. discriminate Heq'.
Qed.

(** C8, as the code has it: [get_access_token] leaves the handler's
    [request_token] as it was, whether the exchange succeeds or fails, so a
    later call builds its session from the same request token. *)
Theorem get_access_token_keeps_request_token {E : Env}
    (verifier : pyval) (m : machine OAuthHandler.t) :
  OAuthHandler.request_token (mem (snd (OAuthHandler.get_access_token verifier m)))
  = OAuthHandler.request_token (mem m)
  /\ (forall verifier',
       exchange_session_args verifier'
         (mem (snd (OAuthHandler.get_access_token verifier m)))
       = exchange_session_args verifier' (mem m)).
Proof.
  assert (OAuthHandler.request_token
            (mem (snd (OAuthHandler.get_access_token verifier m)))
          = OAuthHandler.request_token (mem m)
          /\ OAuthHandler.consumer_key
               (mem (snd (OAuthHandler.get_access_token verifier m)))
             = OAuthHandler.consumer_key (mem m)
          /\ OAuthHandler.consumer_secret
               (mem (snd (OAuthHandler.get_access_token verifier m)))
             = OAuthHandler.consumer_secret (mem m)
          /\ OAuthHandler.callback
               (mem (snd (OAuthHandler.get_access_token verifier m)))
             = OAuthHandler.callback (mem m)) as (Hrt & Hck & Hcs & Hcb).
  { unfold OAuthHandler.get_access_token. rewrite try_except_state.
    unfold bind, getattr, setattr, lift, ret, OAuthHandler.call_oauth.
    run_py; done. }
  split; [done|].
  intros verifier'. unfold exchange_session_args.
  by rewrite Hrt, Hck, Hcs, Hcb.
Qed.

(** C8 as stated fails: after an exchange, granted or refused, the handler
    still holds the request token, and a second exchange on the same
    handler is signed with it again. *)
Lemma request_token_reused_after_exchange :
  let granted :=
    @OAuthHandler.get_access_token (scripted granting) PNone (pending granting) in
  let refused :=
    @OAuthHandler.get_access_token (scripted refusing) PNone (pending refusing) in
  (fst granted = Ok (PStr "at", PStr "as")
   /\ OAuthHandler.request_token (mem (snd granted)) !! "oauth_token"
      = Some (PStr "rt")
   /\ OAuthHandler.oauth
        (mem (snd (@OAuthHandler.get_access_token (scripted granting) PNone
                     (snd granted))))
      = mkOAuth1Session_args (PStr "ck") (PStr "cs") (PStr "rt") (PStr "rs")
          PNone PNone)
  /\ (fst refused
      = Raise (TweepyException
                 (ArgExn (LibraryError "TokenRequestDenied"
                            "Token request failed with code 401")))
      /\ OAuthHandler.request_token (mem (snd refused)) !! "oauth_token"
         = Some (PStr "rt")
      /\ OAuthHandler.oauth
           (mem (snd (@OAuthHandler.get_access_token (scripted refusing) PNone
                        (snd refused))))
         = mkOAuth1Session_args (PStr "ck") (PStr "cs") (PStr "rt") (PStr "rs")
             PNone PNone).
Proof. repeat split; vm_compute; reflexivity. Qed.

(** ** Error wrapping *)




(** C6: when the parsed xAuth body lacks [oauth_token] or
    [oauth_token_secret], or cannot be parsed at all, the lookup error is
    caught and [get_xauth_access_token] raises a [TweepyException] built
    around it. *)
Theorem xauth_missing_field_is_wrapped {E : Env}
    (username password : pyval) (m : machine OAuthHandler.t)
    (r : Response) (w' : W) :
  requests_post (xauth_request username password (mem m)) (world m) = (Ok r, w') ->
  (forall credentials,
     parse_qs (content r) = Ok credentials ->
     lacks credentials "oauth_token" \/ lacks credentials "oauth_token_secret" ->
     exists cause,
       OAuthHandler.get_xauth_access_token username password m
       = (Raise (TweepyException (ArgExn cause)),
          mkMachine (mem m) w' (warnings m))
       /\ (cause = TypeError "'NoneType' object is not subscriptable"
           \/ cause = IndexError "list index out of range"))
  /\ (forall cause,
        parse_qs (content r) = Raise cause -> is_Exception cause = true ->
        OAuthHandler.get_xauth_access_token username password m
        = (Raise (TweepyException (ArgExn cause)),
           mkMachine (mem m) w' (warnings m))).
Proof.
  intros Hpost. unfold xauth_request in Hpost.
  split.
  - intros credentials Hparse Hlacks.
    unfold OAuthHandler.get_xauth_access_token, try_except, bind, getattr,
      call_world, lift, raise.
    rewrite Hpost, Hparse. unfold lacks in Hlacks.
    destruct Hlacks as [[Hk | Hk] | [Hs | Hs]].
    + rewrite Hk. cbn. eauto.
    + rewrite Hk. cbn. eauto.
    + rewrite Hs.
      destruct (first_item (qs_get credentials (PStr "oauth_token")))
        as [tok|e] eqn:Htok; cbn; [eauto|].
      unfold first_item in Htok.
      destruct (qs_get credentials (PStr "oauth_token")) as [[|v vs]|];
        inversion Htok; subst; cbn; eauto.
    + rewrite Hs.
      destruct (first_item (qs_get credentials (PStr "oauth_token")))
        as [tok|e] eqn:Htok; cbn; [eauto|].
      unfold first_item in Htok.
      destruct (qs_get credentials (PStr "oauth_token")) as [[|v vs]|];
        inversion Htok; subst; cbn; eauto.
  - intros cause Hparse Hexc.
    unfold OAuthHandler.get_xauth_access_token, try_except, bind, getattr,
      call_world, lift, raise.
    rewrite Hpost, Hparse. cbn. by rewrite Hexc.
Qed.

Lemma xauth_missing_field_is_wrapped_witness :
  exists cause,
    @OAuthHandler.get_xauth_access_token (scripted odd) (PStr "u") (PStr "p")
      (unauthenticated odd)
    = (Raise (TweepyException (ArgExn cause)),
       @mkMachine (scripted odd) _ (mem (unauthenticated odd)) 1 [])
    /\ (cause = TypeError "'NoneType' object is not subscriptable"
        \/ cause = IndexError "list index out of range").
Proof.
  apply (proj1 (@xauth_missing_field_is_wrapped (scripted odd) (PStr "u") (PStr "p")
                  (unauthenticated odd)
                  (mkResponse 200 (String.list_byte_of_string "oauth_token=at"))
                  1 eq_refl)
           [(PStr "oauth_token", [PStr "at"])] eq_refl).
  right. left. reflexivity.
Defined.

(** ** OAuth2Bearer and AppAuthHandler *)

#[export] Instance dict_mapping_laws : MappingLaws (gmap string pyval).
Proof.
  split.
  - intros m k v. apply lookup_insert_eq.
  - intros m k k' v Hk. apply lookup_insert_ne.
    intros ->. cbn in Hk. by rewrite String.eqb_refl in Hk.
Qed.

#[export] Instance cid_mapping_laws : MappingLaws CaseInsensitiveDict.
Proof.
  split.
  - intros m k v. cbn. by rewrite lookup_insert_eq.
  - intros m k k' v Hk. cbn in *. rewrite lookup_insert_ne; [done|].
    intros Heq. by rewrite Heq, String.eqb_refl in Hk.
Qed.

Lemma pyval_eqb_PStr (v : pyval) (s : string) :
  pyval_eqb v (PStr s) = true <-> v = PStr s.
Proof.
  destruct v; cbn; try (split; [discriminate | discriminate]).
  rewrite String.eqb_eq. split; congruence.
Qed.

(** The request after [OAuth2Bearer(token)] was applied to it *)
Lemma bearer_call_run {E : Env} {M : Type} `{MutableMapping M}
    (token : string) (request : ref) (rq : Request M)
    (m : machine (gmap ref (object M))) :
  mem m !! request = Some (ORequest rq) ->
  OAuth2Bearer.__call__ (OAuth2Bearer.__init__ (PStr token)) request m
  = (Ok request,
     mkMachine
       (<[request :=
            ORequest (mkRequest (req_method rq) (req_url rq)
                        (mm_set (headers rq) "Authorization"
                           (PStr ("Bearer " ++ token)))
                        (req_body rq))]> (mem m))
       (world m) (warnings m)).
Proof.
  intros Hreq.
  unfold OAuth2Bearer.__call__, OAuth2Bearer.__init__, bind, lift,
    OAuth2Bearer.set_header, ret.
  cbn [OAuth2Bearer.bearer_token OAuth2Bearer.str_add]. by rewrite Hreq.
Qed.

(** C5: applied to a request, [OAuth2Bearer(token)] returns that same
    request, whose [Authorization] header is now exactly "Bearer " followed
    by the token; every header under another name, the other fields of the
    request, every other object, the world and the log are as before.  It
    never raises. *)
Theorem bearer_sets_authorization_header {E : Env} {M : Type}
    `{MappingLaws M} (token : string) (request : ref) (rq : Request M)
    (m : machine (gmap ref (object M))) :
  mem m !! request = Some (ORequest rq) ->
  exists rq',
    OAuth2Bearer.__call__ (OAuth2Bearer.__init__ (PStr token)) request m
    = (Ok request,
       mkMachine (<[request := ORequest rq']> (mem m)) (world m) (warnings m))
    /\ mm_get (headers rq') "Authorization" = Some (PStr ("Bearer " ++ token))
    /\ (forall k, mm_same_key "Authorization" k = false ->
                  mm_get (headers rq') k = mm_get (headers rq) k)
    /\ req_method rq' = req_method rq
    /\ req_url rq' = req_url rq
    /\ req_body rq' = req_body rq
    /\ (forall other, other <> request ->
                      <[request := ORequest rq']> (mem m) !! other = mem m !! other).
Proof.
  intros Hreq.
  exists (mkRequest (req_method rq) (req_url rq)
            (mm_set (headers rq) "Authorization" (PStr ("Bearer " ++ token)))
            (req_body rq)).
  split; [|split; [|split; [|split; [|split; [|split]]]]]; try reflexivity.
  - by apply bearer_call_run.
  - cbn [headers]. apply mm_get_set_same.
  - intros k Hk. cbn [headers]. by apply mm_get_set_other.
  - intros other Hother. by apply lookup_insert_ne.
Qed.

Lemma bearer_sets_authorization_header_witness :
  exists rq',
    @OAuth2Bearer.__call__ (scripted granting) (gmap string pyval) _
      (OAuth2Bearer.__init__ (PStr "XYZ")) 1%positive
      (@mkMachine (scripted granting) _
         (one_request (<["Accept" := PStr "*/*"]> ∅ : gmap string pyval)) O [])
    = (Ok 1%positive,
       @mkMachine (scripted granting) _
         (<[1%positive := ORequest rq']>
            (one_request (<["Accept" := PStr "*/*"]> ∅ : gmap string pyval))) O [])
    /\ mm_get (headers rq') "Authorization" = Some (PStr "Bearer XYZ")
    /\ mm_get (headers rq') "Accept" = Some (PStr "*/*").
Proof.
  destruct (@bearer_sets_authorization_header (scripted granting)
              (gmap string pyval) _ _ "XYZ" 1%positive
              (mkRequest "GET" "https://api.twitter.com/2/tweets"
                 (<["Accept" := PStr "*/*"]> ∅) PNone)
              (@mkMachine (scripted granting) _
                 (one_request (<["Accept" := PStr "*/*"]> ∅ : gmap string pyval))
                 O [])
              eq_refl)
    as (rq' & Hrun & Hauth & Hother & _).
  exists rq'. split; [exact Hrun|]. split; [exact Hauth|].
  rewrite (Hother "Accept" eq_refl). reflexivity.
Defined.

(** C3: when the provider answers with a JSON object whose [token_type] is
    not "bearer", the constructor raises a [TweepyException] whose message
    is built from the token type received, and returns no handler; when the
    object says "bearer" and carries the access token [T], the constructor
    returns a handler whose [apply_auth()] is the bearer adapter for [T],
    and that adapter sets the header "Bearer T". *)
Theorem app_auth_requires_bearer {E : Env}
    (consumer_key consumer_secret : pyval) (w w' : W)
    (resp : Response) (items : list (string * pyval)) :
  requests_post (token_request consumer_key consumer_secret) w = (Ok resp, w') ->
  Response_json resp = Ok (PDict items) ->
  (forall token_type,
     default PNone (assoc "token_type" items) = token_type ->
     token_type <> PStr "bearer" ->
     AppAuthHandler.__init__ consumer_key consumer_secret w
     = (Raise (TweepyException
                 (ArgStr (AppAuthHandler.unexpected_token_type token_type))), w')
     /\ forall t, token_type = PStr t ->
                  AppAuthHandler.unexpected_token_type token_type
                  = "Expected token_type to equal " ++ AppAuthHandler.DQUOTE
                    ++ "bearer" ++ AppAuthHandler.DQUOTE ++ ", but got " ++ t
                    ++ " instead")
  /\ (forall T,
        assoc "token_type" items = Some (PStr "bearer") ->
        assoc "access_token" items = Some (PStr T) ->
        exists h,
          AppAuthHandler.__init__ consumer_key consumer_secret w = (Ok h, w')
          /\ AppAuthHandler.apply_auth h = OAuth2Bearer.__init__ (PStr T)
          /\ forall (M : Type) (ops : MutableMapping M) (laws : MappingLaws M)
                    (request : ref) (rq : Request M)
                    (m : machine (gmap ref (object M))),
              mem m !! request = Some (ORequest rq) ->
              exists rq',
                OAuth2Bearer.__call__ (AppAuthHandler.apply_auth h) request m
                = (Ok request,
                   mkMachine (<[request := ORequest rq']> (mem m))
                     (world m) (warnings m))
                /\ mm_get (headers rq') "Authorization" = Some (PStr ("Bearer " ++ T))).
Proof.
  intros Hpost Hjson. unfold token_request in Hpost. split.
  - intros token_type Htype Hne. split.
    + unfold AppAuthHandler.__init__, bind, lift, raise, py_get.
      rewrite Hpost, Hjson, Htype.
      destruct (pyval_eqb token_type (PStr "bearer")) eqn:Heq; [|reflexivity].
      by apply pyval_eqb_PStr in Heq.
    + by intros t ->.
  - intros T Htype Htoken.
    exists (AppAuthHandler.mk consumer_key consumer_secret (PStr T)).
    split; [|split].
    + unfold AppAuthHandler.__init__, bind, lift, ret, py_get, py_getitem.
      by rewrite Hpost, Hjson, Htype, Htoken.
    + reflexivity.
    + intros M ops laws request rq m Hreq. eexists. split.
      * unfold AppAuthHandler.apply_auth. cbn [AppAuthHandler._bearer_token].
        by apply bearer_call_run.
      * cbn [headers]. apply mm_get_set_same.
Qed.

Lemma app_auth_requires_bearer_witness :
  @AppAuthHandler.__init__ (scripted odd) (PStr "ck") (PStr "cs") O
  = (Raise (TweepyException
              (ArgStr ("Expected token_type to equal " ++ AppAuthHandler.DQUOTE
                       ++ "bearer" ++ AppAuthHandler.DQUOTE
                       ++ ", but got mac instead"))), 1)
  /\ exists h,
      @AppAuthHandler.__init__ (scripted granting) (PStr "ck") (PStr "cs") O
      = (Ok h, 1)
      /\ AppAuthHandler.apply_auth h = OAuth2Bearer.__init__ (PStr "T").
Proof.
  split.
  - apply (proj1 (@app_auth_requires_bearer (scripted odd) (PStr "ck") (PStr "cs")
                    O 1 (mkResponse 200 (String.list_byte_of_string "oauth_token=at"))
                    [("token_type", PStr "mac"); ("access_token", PStr "T")]
                    eq_refl eq_refl)
             (PStr "mac") eq_refl).
    discriminate.
  - destruct (proj2 (@app_auth_requires_bearer (scripted granting) (PStr "ck")
                       (PStr "cs") O 1
                       (mkResponse 200
                          (String.list_byte_of_string
                             "oauth_token=at&oauth_token_secret=as"))
                       [("token_type", PStr "bearer"); ("access_token", PStr "T")]
                       eq_refl eq_refl)
                "T" eq_refl eq_refl)
      as (h & Hinit & Hauth & _).
    exists h. split; [exact Hinit | exact Hauth].
Defined.

(** ** A note on xAuth bodies

    [parse_qs] applied to a [bytes] body, which is what [r.content] is,
    returns [bytes] keys; the lookups of [get_xauth_access_token] use [str]
    keys and find nothing. *)
Lemma qs_get_str_in_bytes_keys (credentials : qs_dict) (field : string) :
  Forall (fun kv => exists bs, fst kv = PBytes bs) credentials ->
  lacks credentials field.
Proof.
  intros Hkeys. left.
  induction Hkeys as [|[k vs] rest [bs Hk] _ IH]; [done|].
  cbn in Hk. subst k. exact IH.
Qed.

Example xauth_bytes_body :
  fst (@OAuthHandler.get_xauth_access_token (scripted granting) (PStr "u") (PStr "p")
         (unauthenticated granting))
  = Raise (TweepyException
             (ArgExn (TypeError "'NoneType' object is not subscriptable"))).
Proof. vm_compute. reflexivity. Qed.

(** * Further properties of the module *)

(** ** OAuthHandler: construction and request token *)

(** X1: A handler that [__init__] returns was built from [str] or [bytes]
    credentials without touching the world; it holds them with the
    callback, no access token and an empty request token, so that
    [apply_auth()] signs with the consumer credentials alone. *)
Theorem init_builds_unauthenticated_handler {E : Env}
    (consumer_key consumer_secret callback : pyval) (w w' : W) (h : OAuthHandler.t) :
  OAuthHandler.__init__ consumer_key consumer_secret callback w = (Ok h, w') ->
  w' = w
  /\ isinstance_str_bytes consumer_key = true
  /\ isinstance_str_bytes consumer_secret = true
  /\ OAuth1Session_init
       (mkOAuth1Session_args consumer_key consumer_secret PNone PNone PNone callback)
     = Ok (OAuthHandler.oauth h)
  /\ OAuthHandler.request_token h = ∅
  /\ forall log,
       OAuthHandler.apply_auth (mkMachine h w log)
       = (Ok (mkOAuth1 consumer_key consumer_secret PNone PNone PNone),
          mkMachine h w log).
Proof.
  unfold OAuthHandler.__init__, bind, lift, raise, ret.
  destruct (isinstance_str_bytes consumer_key); [|discriminate].
  destruct (isinstance_str_bytes consumer_secret); [|discriminate].
  cbn [negb]. destruct (OAuth1Session_init _) as [o|e]; [|discriminate].
  intros [= <- <-]. repeat split.
Qed.

Lemma init_builds_unauthenticated_handler_witness :
  OAuthHandler.request_token
    (@OAuthHandler.mk (scripted granting) (PStr "ck") (PBytes [x63; x73]) PNone PNone
       (PStr "oob") PNone ∅
       (mkOAuth1Session_args (PStr "ck") (PBytes [x63; x73]) PNone PNone PNone
          (PStr "oob")))
  = ∅.
Proof.
  apply (@init_builds_unauthenticated_handler (scripted granting)
           (PStr "ck") (PBytes [x63; x73]) (PStr "oob") O O).
  reflexivity.
Defined.

(** X2: An empty [access_type] is no [access_type]: the request goes to the
    same URL, without the [x_auth_access_type] parameter. *)
Theorem empty_access_type_is_none {E : Env} (m : machine OAuthHandler.t) :
  OAuthHandler._get_request_token (Some "") m = OAuthHandler._get_request_token None m
  /\ forall signin,
      OAuthHandler.get_authorization_url signin (Some "") m
      = OAuthHandler.get_authorization_url signin None m.
Proof.
  split; [reflexivity|]. intros signin.
  unfold OAuthHandler.get_authorization_url. by destruct signin.
Qed.

(** X3: A non-empty [access_type] is appended, as given, to the request-token
    URL handed to the session. *)
Theorem access_type_in_request_url {E : Env}
    (access_type : string) (m : machine OAuthHandler.t) :
  access_type <> "" ->
  fst (OAuthHandler._get_request_token (Some access_type) m)
  = match fst (OAuth1Session_fetch_request_token
                 ("https://api.twitter.com/oauth/request_token?x_auth_access_type="
                  ++ access_type)
                 (OAuthHandler.oauth (mem m), world m)) with
    | Ok tok => Ok tok
    | Raise e => if is_Exception e then Raise (TweepyException (ArgExn e)) else Raise e
    end.
Proof.
  intros Hne. rewrite get_request_token_run. unfold request_token_url.
  assert (truthy (Some access_type) = true) as ->.
  { cbn. destruct (String.eqb access_type "") eqn:Heq; [|done].
    by apply String.eqb_eq in Heq. }
  cbn [default].
  change (OAuthHandler._get_oauth_url "request_token" ++ "?x_auth_access_type="
          ++ access_type)
    with ("https://api.twitter.com/oauth/request_token?x_auth_access_type="
          ++ access_type).
  destruct (OAuth1Session_fetch_request_token _ _) as [[tok|e] [o' w']]; cbn;
    [done|]. by destruct (is_Exception e).
Qed.

Lemma access_type_in_request_url_witness :
  fst (@OAuthHandler._get_request_token (scripted granting) (Some "read")
         (unauthenticated granting))
  = Ok (token_pair "rt" "rs").
Proof.
  rewrite (@access_type_in_request_url (scripted granting) "read"
             (unauthenticated granting)); [reflexivity | discriminate].
Defined.

(** ** OAuthHandler: the authorization URL *)

(** One call of [get_authorization_url], step by step. *)
Lemma oauth1_authorization_url_run {E : Env} (signin : bool)
    (access_type : option string) (m : machine OAuthHandler.t) :
  OAuthHandler.get_authorization_url signin access_type m =
  let log := if (signin && truthy access_type)%bool
             then (warnings m ++ [WARNING_MESSAGE])%list else warnings m in
  let '(r, (o', w')) :=
    OAuth1Session_fetch_request_token (request_token_url access_type)
      (OAuthHandler.oauth (mem m), world m) in
  match r with
  | Raise e =>
      (if is_Exception e
       then Raise (TweepyException (ArgExn (TweepyException (ArgExn e))))
       else Raise e,
       mkMachine (OAuthHandler.with_oauth o' (mem m)) w' log)
  | Ok tok =>
      let '(r2, (o'', w'')) :=
        OAuth1Session_authorization_url
          (OAuthHandler._get_oauth_url (if signin then "authenticate" else "authorize"))
          (o', w') in
      (match r2 with
       | Ok url => Ok url
       | Raise e => if is_Exception e then Raise (TweepyException (ArgExn e))
                    else Raise e
       end,
       mkMachine
         (OAuthHandler.with_oauth o''
            (OAuthHandler.with_request_token tok (OAuthHandler.with_oauth o' (mem m))))
         w'' log)
  end.
Proof.
  assert (forall (url : string) (m0 : machine OAuthHandler.t),
            try_except
              (tok <- OAuthHandler._get_request_token access_type ;;
               setattr (OAuthHandler.with_request_token tok) ;;;
               OAuthHandler.call_oauth (OAuth1Session_authorization_url url))
              (fun e => raise (TweepyException (ArgExn e))) m0
            = let '(r, (o', w')) :=
                OAuth1Session_fetch_request_token (request_token_url access_type)
                  (OAuthHandler.oauth (mem m0), world m0) in
              match r with
              | Raise e =>
                  (if is_Exception e
                   then Raise (TweepyException (ArgExn (TweepyException (ArgExn e))))
                   else Raise e,
                   mkMachine (OAuthHandler.with_oauth o' (mem m0)) w' (warnings m0))
              | Ok tok =>
                  let '(r2, (o'', w'')) := OAuth1Session_authorization_url url (o', w') in
                  (match r2 with
                   | Ok u => Ok u
                   | Raise e => if is_Exception e
                                then Raise (TweepyException (ArgExn e)) else Raise e
                   end,
                   mkMachine
                     (OAuthHandler.with_oauth o''
                        (OAuthHandler.with_request_token tok
                           (OAuthHandler.with_oauth o' (mem m0))))
                     w'' (warnings m0))
              end) as Hrest.
  { intros url m0. unfold try_except, raise. unfold bind at 1.
    rewrite get_request_token_run.
    destruct (OAuth1Session_fetch_request_token _ _) as [[tok|e] [o' w']].
    - unfold bind, setattr, OAuthHandler.call_oauth. cbn [mem world warnings].
      cbn [OAuthHandler.oauth OAuthHandler.with_request_token OAuthHandler.with_oauth].
      destruct (OAuth1Session_authorization_url url (o', w')) as [[u|e] [o'' w'']];
        [reflexivity|]. by destruct (is_Exception e).
    - cbn. destruct (is_Exception e) eqn:He; [reflexivity|]. by rewrite He. }
  unfold OAuthHandler.get_authorization_url.
  destruct signin; cbn [andb].
  - destruct (truthy access_type).
    + specialize (Hrest (OAuthHandler._get_oauth_url "authenticate")
                    (mkMachine (mem m) (world m) (warnings m ++ [WARNING_MESSAGE])%list)).
      cbn [mem world warnings] in Hrest. rewrite <- Hrest. reflexivity.
    + specialize (Hrest (OAuthHandler._get_oauth_url "authenticate") m).
      rewrite <- Hrest. by destruct m.
  - specialize (Hrest (OAuthHandler._get_oauth_url "authorize") m).
    rewrite <- Hrest. reflexivity.
Qed.

(** X4: The warning is logged exactly when [signin_with_twitter] is set and
    [access_type] is non-empty, once, whatever the outcome of the call;
    otherwise the log is left as it was. *)
Theorem warning_iff_signin_and_access_type {E : Env} (signin : bool)
    (access_type : option string) (m : machine OAuthHandler.t) :
  warnings (snd (OAuthHandler.get_authorization_url signin access_type m))
  = if (signin && truthy access_type)%bool
    then (warnings m ++ [WARNING_MESSAGE])%list
    else warnings m.
Proof.
  rewrite oauth1_authorization_url_run.
  destruct (OAuth1Session_fetch_request_token _ _) as [[tok|e] [o' w']]; [|done].
  by destruct (OAuth1Session_authorization_url _ _) as [r2 [o'' w'']].
Qed.

(** X5: When the request-token step fails, the handler keeps the request token
    it had, and the session's [authorization_url] is not called: the
    session and the world are as the failed fetch left them. *)
Theorem failed_request_keeps_request_token {E : Env} (signin : bool)
    (access_type : option string) (m : machine OAuthHandler.t)
    (e : exn) (o' : OAuth1Session) (w' : W) :
  OAuth1Session_fetch_request_token (request_token_url access_type)
    (OAuthHandler.oauth (mem m), world m) = (Raise e, (o', w')) ->
  let m' := snd (OAuthHandler.get_authorization_url signin access_type m) in
  OAuthHandler.request_token (mem m') = OAuthHandler.request_token (mem m)
  /\ OAuthHandler.oauth (mem m') = o'
  /\ world m' = w'.
Proof. intros Hfetch. rewrite oauth1_authorization_url_run, Hfetch. done. Qed.

Lemma failed_request_keeps_request_token_witness :
  OAuthHandler.request_token
    (mem (snd (@OAuthHandler.get_authorization_url (scripted refusing) false None
                 (pending refusing))))
  = OAuthHandler.request_token (mem (pending refusing)).
Proof.
  apply (@failed_request_keeps_request_token (scripted refusing) false None
           (pending refusing)
           (LibraryError "TokenRequestDenied" "Token request failed with code 401")
           (mkOAuth1Session_args (PStr "ck") (PStr "cs") PNone PNone PNone PNone) 1).
  reflexivity.
Defined.

(** X6: The URL returned is the one the session builds for the [authenticate]
    endpoint when [signin_with_twitter] is set and for the [authorize]
    endpoint otherwise, on the session as the request-token fetch left
    it. *)
Theorem endpoint_follows_signin {E : Env} (signin : bool)
    (access_type : option string) (m : machine OAuthHandler.t)
    (tok : gmap string pyval) (o' : OAuth1Session) (w' : W) (url : string) :
  OAuth1Session_fetch_request_token (request_token_url access_type)
    (OAuthHandler.oauth (mem m), world m) = (Ok tok, (o', w')) ->
  fst (OAuthHandler.get_authorization_url signin access_type m) = Ok url ->
  fst (OAuth1Session_authorization_url
         (if signin then "https://api.twitter.com/oauth/authenticate"
          else "https://api.twitter.com/oauth/authorize")
         (o', w'))
  = Ok url.
Proof.
  intros Hfetch. rewrite oauth1_authorization_url_run, Hfetch.
  destruct signin;
    match goal with
    | |- context [OAuth1Session_authorization_url ?u _] =>
        change u with ("https://api.twitter.com/oauth/" ++ "authenticate")
        || change u with ("https://api.twitter.com/oauth/" ++ "authorize")
    end; cbn [String.append];
    (destruct (OAuth1Session_authorization_url _ _) as [[u|e] [o'' w'']]; cbn;
     [done|]; by destruct (is_Exception e)).
Qed.

Lemma endpoint_follows_signin_witness :
  fst (@OAuth1Session_authorization_url (scripted granting)
         "https://api.twitter.com/oauth/authenticate"
         (mkOAuth1Session_args (PStr "ck") (PStr "cs") (PStr "rt") (PStr "rs")
            PNone PNone, 1))
  = Ok "https://api.twitter.com/oauth/authenticate?oauth_token=rt".
Proof.
  apply (@endpoint_follows_signin (scripted granting) true None
           (unauthenticated granting) (token_pair "rt" "rs")
           (mkOAuth1Session_args (PStr "ck") (PStr "cs") (PStr "rt") (PStr "rs")
              PNone PNone) 1);
    vm_compute; reflexivity.
Defined.

(** ** OAuthHandler: what the operations leave alone *)

(** X7: No operation of the handler changes the consumer credentials, the
    callback or the user name it was built with. *)
Theorem credentials_are_immutable {E : Env} (m : machine OAuthHandler.t) :
  let same (m' : machine OAuthHandler.t) :=
    OAuthHandler.consumer_key (mem m') = OAuthHandler.consumer_key (mem m)
    /\ OAuthHandler.consumer_secret (mem m') = OAuthHandler.consumer_secret (mem m)
    /\ OAuthHandler.callback (mem m') = OAuthHandler.callback (mem m)
    /\ OAuthHandler.username (mem m') = OAuthHandler.username (mem m) in
  (forall access_type, same (snd (OAuthHandler._get_request_token access_type m)))
  /\ (forall key secret, same (snd (OAuthHandler.set_access_token key secret m)))
  /\ (forall signin access_type,
        same (snd (OAuthHandler.get_authorization_url signin access_type m)))
  /\ (forall verifier, same (snd (OAuthHandler.get_access_token verifier m)))
  /\ (forall username password,
        same (snd (OAuthHandler.get_xauth_access_token username password m)))
  /\ same (snd (OAuthHandler.apply_auth m)).
Proof.
  cbv zeta. repeat match goal with |- _ /\ _ => split end; try done.
  all: intros; try rewrite get_request_token_run;
    try rewrite oauth1_authorization_url_run;
    unfold OAuthHandler.get_access_token, OAuthHandler.get_xauth_access_token;
    try rewrite try_except_state;
    unfold bind, getattr, setattr, lift, ret, OAuthHandler.call_oauth, call_world;
    run_py; done.
Qed.

(** X8: [get_xauth_access_token] does not store what it obtains: the handler is
    the same after the call, successful or not, and so is the log. *)
Theorem xauth_leaves_handler_unchanged {E : Env}
    (username password : pyval) (m : machine OAuthHandler.t) :
  mem (snd (OAuthHandler.get_xauth_access_token username password m)) = mem m
  /\ warnings (snd (OAuthHandler.get_xauth_access_token username password m))
     = warnings m.
Proof.
  unfold OAuthHandler.get_xauth_access_token. rewrite try_except_state.
  unfold bind, getattr, lift, ret, call_world. run_py; done.
Qed.



(** ** OAuthHandler: the access-token exchange *)

(** X10: A successful exchange stores the pair the provider sent, returns that
    same pair, and [apply_auth()] called next signs with it. *)
Theorem exchange_stores_and_returns_pair {E : Env}
    (verifier : pyval) (m : machine OAuthHandler.t)
    (args : OAuth1Session_args) (o o' : OAuth1Session) (w' : W)
    (resp : gmap string pyval) (tok sec : pyval) :
  exchange_session_args verifier (mem m) = Ok args ->
  OAuth1Session_init args = Ok o ->
  OAuth1Session_fetch_access_token (OAuthHandler._get_oauth_url "access_token")
    (o, world m) = (Ok resp, (o', w')) ->
  resp !! "oauth_token" = Some tok ->
  resp !! "oauth_token_secret" = Some sec ->
  exists m',
    OAuthHandler.get_access_token verifier m = (Ok (tok, sec), m')
    /\ OAuthHandler.access_token (mem m') = tok
    /\ OAuthHandler.access_token_secret (mem m') = sec
    /\ OAuthHandler.oauth (mem m') = o'
    /\ world m' = w'
    /\ OAuthHandler.apply_auth m'
       = (Ok (mkOAuth1 (OAuthHandler.consumer_key (mem m))
                (OAuthHandler.consumer_secret (mem m)) tok sec PNone), m').
Proof.
  intros Hargs Hinit Hfetch Htok Hsec. unfold exchange_session_args in Hargs.
  unfold OAuthHandler.get_access_token, try_except, bind, getattr, lift, setattr,
    OAuthHandler.call_oauth, ret.
  destruct (dict_getitem (OAuthHandler.request_token (mem m)) "oauth_token")
    as [rok|e1]; [|discriminate Hargs].
  destruct (dict_getitem (OAuthHandler.request_token (mem m)) "oauth_token_secret")
    as [ros|e2]; [|discriminate Hargs].
  injection Hargs as <-. rewrite Hinit.
  cbn [mem world warnings OAuthHandler.with_oauth OAuthHandler.oauth].
  rewrite Hfetch. unfold dict_getitem. rewrite Htok, Hsec.
  eexists. split; [reflexivity|]. repeat split.
Qed.

Lemma exchange_stores_and_returns_pair_witness :
  exists m',
    @OAuthHandler.get_access_token (scripted granting) (PStr "1234")
      (pending granting)
    = (Ok (PStr "at", PStr "as"), m')
    /\ OAuthHandler.access_token (mem m') = PStr "at"
    /\ OAuthHandler.access_token_secret (mem m') = PStr "as"
    /\ OAuthHandler.oauth (mem m')
       = mkOAuth1Session_args (PStr "ck") (PStr "cs") (PStr "rt") (PStr "rs")
           (PStr "1234") PNone
    /\ world m' = 1
    /\ OAuthHandler.apply_auth m'
       = (Ok (mkOAuth1 (PStr "ck") (PStr "cs") (PStr "at") (PStr "as") PNone), m').
Proof.
  apply (@exchange_stores_and_returns_pair (scripted granting) (PStr "1234")
           (pending granting)
           (mkOAuth1Session_args (PStr "ck") (PStr "cs") (PStr "rt") (PStr "rs")
              (PStr "1234") PNone)
           (mkOAuth1Session_args (PStr "ck") (PStr "cs") (PStr "rt") (PStr "rs")
              (PStr "1234") PNone)
           (mkOAuth1Session_args (PStr "ck") (PStr "cs") (PStr "rt") (PStr "rs")
              (PStr "1234") PNone)
           1 (token_pair "at" "as") (PStr "at") (PStr "as"));
    vm_compute; reflexivity.
Defined.

(** X11: An answer that carries [oauth_token] but no [oauth_token_secret] leaves
    the handler half updated: the new access token is stored, the secret is
    the one held before, and the call raises a [TweepyException] around the
    [KeyError]. *)
Theorem exchange_without_secret_half_updates {E : Env}
    (verifier : pyval) (m : machine OAuthHandler.t)
    (args : OAuth1Session_args) (o o' : OAuth1Session) (w' : W)
    (resp : gmap string pyval) (tok : pyval) :
  exchange_session_args verifier (mem m) = Ok args ->
  OAuth1Session_init args = Ok o ->
  OAuth1Session_fetch_access_token (OAuthHandler._get_oauth_url "access_token")
    (o, world m) = (Ok resp, (o', w')) ->
  resp !! "oauth_token" = Some tok ->
  resp !! "oauth_token_secret" = None ->
  exists m',
    OAuthHandler.get_access_token verifier m
    = (Raise (TweepyException (ArgExn (KeyError "oauth_token_secret"))), m')
    /\ OAuthHandler.access_token (mem m') = tok
    /\ OAuthHandler.access_token_secret (mem m')
       = OAuthHandler.access_token_secret (mem m).
Proof.
  intros Hargs Hinit Hfetch Htok Hsec. unfold exchange_session_args in Hargs.
  unfold OAuthHandler.get_access_token, try_except, bind, getattr, lift, setattr,
    OAuthHandler.call_oauth, ret, raise.
  destruct (dict_getitem (OAuthHandler.request_token (mem m)) "oauth_token")
    as [rok|e1]; [|discriminate Hargs].
  destruct (dict_getitem (OAuthHandler.request_token (mem m)) "oauth_token_secret")
    as [ros|e2]; [|discriminate Hargs].
  injection Hargs as <-. rewrite Hinit.
  cbn [mem world warnings OAuthHandler.with_oauth OAuthHandler.oauth].
  rewrite Hfetch. unfold dict_getitem. rewrite Htok, Hsec.
  eexists. split; [reflexivity|]. repeat split.
Qed.

Lemma exchange_without_secret_half_updates_witness :
  exists m',
    @OAuthHandler.get_access_token (scripted halfway) PNone (pending halfway)
    = (Raise (TweepyException (ArgExn (KeyError "oauth_token_secret"))), m')
    /\ OAuthHandler.access_token (mem m') = PStr "at"
    /\ OAuthHandler.access_token_secret (mem m') = PNone.
Proof.
  apply (@exchange_without_secret_half_updates (scripted halfway) PNone
           (pending halfway)
           (mkOAuth1Session_args (PStr "ck") (PStr "cs") (PStr "rt") (PStr "rs")
              PNone PNone)
           (mkOAuth1Session_args (PStr "ck") (PStr "cs") (PStr "rt") (PStr "rs")
              PNone PNone)
           (mkOAuth1Session_args (PStr "ck") (PStr "cs") (PStr "rt") (PStr "rs")
              PNone PNone)
           1 (<["oauth_token" := PStr "at"]> ∅) (PStr "at"));
    vm_compute; reflexivity.
Defined.

(** X12: Without a complete request token the exchange fails at once: the
    [KeyError] names the first missing field, nothing is sent to the
    provider, and the handler with its session is exactly as before. *)
Theorem exchange_without_request_token {E : Env}
    (verifier : pyval) (m : machine OAuthHandler.t) :
  (OAuthHandler.request_token (mem m) !! "oauth_token" = None ->
   OAuthHandler.get_access_token verifier m
   = (Raise (TweepyException (ArgExn (KeyError "oauth_token"))), m))
  /\ (is_Some (OAuthHandler.request_token (mem m) !! "oauth_token") ->
      OAuthHandler.request_token (mem m) !! "oauth_token_secret" = None ->
      OAuthHandler.get_access_token verifier m
      = (Raise (TweepyException (ArgExn (KeyError "oauth_token_secret"))), m)).
Proof.
  unfold OAuthHandler.get_access_token, try_except, bind, getattr, lift, raise,
    dict_getitem.
  split.
  - by intros ->.
  - by intros [rok ->] ->.
Qed.

Lemma exchange_without_request_token_witness :
  @OAuthHandler.get_access_token (scripted granting) PNone (unauthenticated granting)
  = (Raise (TweepyException (ArgExn (KeyError "oauth_token"))),
     unauthenticated granting).
Proof.
  apply (proj1 (@exchange_without_request_token (scripted granting) PNone
                  (unauthenticated granting))).
  reflexivity.
Defined.

(** ** OAuth2Handler: construction and token exchange *)

(** X13: A new PKCE handler has no verifier, and HTTP Basic credentials exactly
    when a client secret was given; [fetch_token] called on it before
    [get_authorization_url] raises [AttributeError] without reaching the
    library or the network. *)
Theorem fetch_token_needs_authorization_url {E : Env}
    (client_id redirect_uri scope client_secret authorization_response : pyval)
    (w w' : W) (h : OAuth2Handler.t) (log : list string) :
  OAuth2Handler.__init__ client_id redirect_uri scope client_secret w = (Ok h, w') ->
  w' = w
  /\ OAuth2Handler.code_verifier h = None
  /\ (client_secret = PNone -> OAuth2Handler.auth h = None)
  /\ (client_secret <> PNone ->
      OAuth2Handler.auth h = Some (mkHTTPBasicAuth client_id client_secret))
  /\ exists msg,
      OAuth2Handler.fetch_token authorization_response (mkMachine h w log)
      = (Raise (AttributeError msg), mkMachine h w log).
Proof.
  unfold OAuth2Handler.__init__, bind, lift, ret.
  destruct (OAuth2Session_init client_id redirect_uri scope) as [b|e]; [|discriminate].
  intros [= <- <-]. split; [done|]. split; [done|]. split; [by intros ->|].
  split; [by destruct client_secret|].
  eexists. reflexivity.
Qed.

Lemma fetch_token_needs_authorization_url_witness :
  exists msg,
    @OAuth2Handler.fetch_token (scripted granting) (PStr "https://cb?code=c")
      (@mkMachine (scripted granting) _
         (@OAuth2Handler.mk (scripted granting) tt
            (Some (mkHTTPBasicAuth (PStr "id") (PStr "secret"))) None) O [])
    = (Raise (AttributeError msg),
       @mkMachine (scripted granting) _
         (@OAuth2Handler.mk (scripted granting) tt
            (Some (mkHTTPBasicAuth (PStr "id") (PStr "secret"))) None) O []).
Proof.
  apply (@fetch_token_needs_authorization_url (scripted granting)
           (PStr "id") (PStr "https://cb") (PList [PStr "tweet.read"]) (PStr "secret")
           (PStr "https://cb?code=c") O O).
  reflexivity.
Defined.

(** X14: [fetch_token] after [get_authorization_url] hands the library the
    verifier that call generated, with the token endpoint, the credentials
    set at construction and [include_client_id=True]; its outcome is the
    library's. *)
Theorem fetch_token_sends_generated_verifier {E : Env}
    (authorization_response : pyval) (m : machine OAuth2Handler.t) :
  let m1 := snd (OAuth2Handler.get_authorization_url m) in
  exists v,
    fst (generate_verifier (world m)) = Ok v
    /\ fst (OAuth2Handler.fetch_token authorization_response m1)
       = fst (OAuth2Session_fetch_token
                (mkFetchTokenArgs "https://api.twitter.com/2/oauth2/token"
                   authorization_response (OAuth2Handler.auth (mem m)) true v)
                (OAuth2Handler.base (mem m1), world m1)).
Proof.
  cbv zeta.
  destruct (get_authorization_url_run m) as (v & c & Hgen & _ & _ & _ & Hrun).
  exists v. rewrite Hgen. split; [done|]. rewrite Hrun.
  destruct (OAuth2Session_authorization_url _ _) as [r [b' w']].
  cbn [snd mem world].
  unfold OAuth2Handler.fetch_token, bind, getattr, OAuth2Handler.get_code_verifier,
    OAuth2Handler.call_super.
  cbn [mem world warnings OAuth2Handler.code_verifier OAuth2Handler.auth
       OAuth2Handler.base].
  by destruct (OAuth2Session_fetch_token _ _) as [r' [b'' w'']].
Qed.

(** X15: The challenge handed to the library is made of characters of the
    URL-safe alphabet only, without padding; when the digest has 32 bytes,
    as SHA-256 digests have, the challenge has 43 characters. *)
Theorem challenge_is_urlsafe_unpadded {E : Env} (m : machine OAuth2Handler.t) :
  exists c,
    fst (OAuth2Handler.get_authorization_url m)
    = result_map fst
        (fst (OAuth2Session_authorization_url OAuth2Handler.AUTHORIZE_URL
                (pkce_kwargs c)
                (OAuth2Handler.base (mem m), snd (token_bytes 128 (world m)))))
    /\ forallb is_urlsafe c = true
    /\ ((forall data, length (sha256_digest data) = 32) -> length c = 43).
Proof.
  destruct (get_authorization_url_run m) as (v & c & _ & _ & _ & Hc & Hrun).
  exists c. split; [|].
  - rewrite Hrun. by destruct (OAuth2Session_authorization_url _ _) as [r [b' w']].
  - unfold recompute_challenge in Hc.
    destruct (encode_ascii v) as [data|e]; [|discriminate Hc].
    cbn in Hc. injection Hc as <-.
    destruct (stripped_b64 (sha256_digest data)) as [Hsafe Hlen].
    split; [done|]. intros Hdigest. by rewrite Hlen, Hdigest.
Qed.

Lemma challenge_is_urlsafe_unpadded_witness :
  exists c,
    fst (@OAuth2Handler.get_authorization_url (scripted granting)
           (pkce_handler granting None))
    = result_map fst
        (fst (@OAuth2Session_authorization_url (scripted granting)
                OAuth2Handler.AUTHORIZE_URL (pkce_kwargs c)
                (tt, snd (@token_bytes (scripted granting) 128 O))))
    /\ forallb is_urlsafe c = true
    /\ length c = 43.
Proof.
  destruct (@challenge_is_urlsafe_unpadded (scripted granting)
              (pkce_handler granting None)) as (c & Hrun & Hsafe & Hlen).
  exists c. split; [exact Hrun|]. split; [exact Hsafe|].
  apply Hlen. intros data.
  change (length (take 32 (data ++ replicate 32 x00)%list) = 32).
  rewrite length_take, length_app, length_replicate. lia.
Defined.

(** ** OAuth2Bearer: other tokens, repeated application *)



(** X17: Applying two adapters in turn to the same request leaves the header of
    the second: the first token is overwritten, and the headers under other
    names are still those of the original request. *)
Theorem last_bearer_wins {E : Env} {M : Type} `{MappingLaws M}
    (first second : string) (request : ref) (rq : Request M)
    (m : machine (gmap ref (object M))) :
  mem m !! request = Some (ORequest rq) ->
  let m1 := snd (OAuth2Bearer.__call__ (OAuth2Bearer.__init__ (PStr first)) request m) in
  exists rq'',
    OAuth2Bearer.__call__ (OAuth2Bearer.__init__ (PStr second)) request m1
    = (Ok request,
       mkMachine (<[request := ORequest rq'']> (mem m)) (world m) (warnings m))
    /\ mm_get (headers rq'') "Authorization" = Some (PStr ("Bearer " ++ second))
    /\ forall k, mm_same_key "Authorization" k = false ->
                 mm_get (headers rq'') k = mm_get (headers rq) k.
Proof.
  intros Hreq. cbv zeta. rewrite (bearer_call_run first request rq m Hreq).
  cbn [snd]. eexists. split; [|split].
  - rewrite (bearer_call_run second request _ _ (lookup_insert_eq _ _ _)).
    cbn [mem world warnings]. by rewrite insert_insert_eq.
  - cbn [headers req_method req_url req_body]. apply mm_get_set_same.
  - intros k Hk. cbn [headers]. by rewrite !mm_get_set_other.
Qed.

Lemma last_bearer_wins_witness :
  exists rq'',
    @OAuth2Bearer.__call__ (scripted granting) (gmap string pyval) _
      (OAuth2Bearer.__init__ (PStr "new")) 1%positive
      (snd (@OAuth2Bearer.__call__ (scripted granting) (gmap string pyval) _
              (OAuth2Bearer.__init__ (PStr "old")) 1%positive
              (@mkMachine (scripted granting) _
                 (one_request (<["Accept" := PStr "*/*"]> ∅ : gmap string pyval))
                 O [])))
    = (Ok 1%positive,
       @mkMachine (scripted granting) _
         (<[1%positive := ORequest rq'']>
            (one_request (<["Accept" := PStr "*/*"]> ∅ : gmap string pyval))) O [])
    /\ mm_get (headers rq'') "Authorization" = Some (PStr "Bearer new")
    /\ mm_get (headers rq'') "Accept" = Some (PStr "*/*").
Proof.
  destruct (@last_bearer_wins (scripted granting) (gmap string pyval) _ _
              "old" "new" 1%positive
              (mkRequest "GET" "https://api.twitter.com/2/tweets"
                 (<["Accept" := PStr "*/*"]> ∅) PNone)
              (@mkMachine (scripted granting) _
                 (one_request (<["Accept" := PStr "*/*"]> ∅ : gmap string pyval))
                 O [])
              eq_refl)
    as (rq'' & Hrun & Hauth & Hother).
  exists rq''. split; [exact Hrun|]. split; [exact Hauth|].
  rewrite (Hother "Accept" eq_refl). reflexivity.
Defined.

(** ** AppAuthHandler: errors and unchecked tokens *)

(** X18: The constructor has no [try]: an exception of the request or of the
    JSON decoding leaves it unchanged, a response that is not an object
    gives an [AttributeError], and a "bearer" answer without
    [access_token] a [KeyError].  None is wrapped in a
    [TweepyException]. *)
Theorem app_auth_errors_are_raw {E : Env}
    (consumer_key consumer_secret : pyval) (w : W) :
  (forall e w',
     requests_post (token_request consumer_key consumer_secret) w = (Raise e, w') ->
     AppAuthHandler.__init__ consumer_key consumer_secret w = (Raise e, w'))
  /\ (forall resp w',
        requests_post (token_request consumer_key consumer_secret) w = (Ok resp, w') ->
        (forall e, Response_json resp = Raise e ->
                   AppAuthHandler.__init__ consumer_key consumer_secret w
                   = (Raise e, w'))
        /\ (forall data, Response_json resp = Ok data ->
                         (forall items, data <> PDict items) ->
                         exists msg,
                           AppAuthHandler.__init__ consumer_key consumer_secret w
                           = (Raise (AttributeError msg), w'))
        /\ (forall items, Response_json resp = Ok (PDict items) ->
                          assoc "token_type" items = Some (PStr "bearer") ->
                          assoc "access_token" items = None ->
                          AppAuthHandler.__init__ consumer_key consumer_secret w
                          = (Raise (KeyError "access_token"), w'))).
Proof.
  unfold token_request, AppAuthHandler.__init__, bind, lift. split.
  - by intros e w' ->.
  - intros resp w' ->. split; [|split].
    + by intros e ->.
    + intros data -> Hne.
      destruct data; try (eexists; reflexivity). by destruct (Hne items).
    + intros items -> Htype Htoken. unfold py_get, py_getitem.
      by rewrite Htype, Htoken.
Qed.

Lemma app_auth_errors_are_raw_witness :
  @AppAuthHandler.__init__ (scripted refusing) (PStr "ck") (PStr "cs") O
  = (Raise (LibraryError "ConnectionError" "connection refused"), 1).
Proof.
  apply (proj1 (@app_auth_errors_are_raw (scripted refusing) (PStr "ck") (PStr "cs") O)).
  reflexivity.
Defined.

(** X19: The access token of a "bearer" answer is stored as it comes.  When it
    is not a [str], construction still succeeds, and the adapter that
    [apply_auth()] returns raises [TypeError] on every request, leaving the
    request untouched. *)
Theorem app_auth_token_is_not_validated {E : Env}
    (consumer_key consumer_secret : pyval) (w w' : W)
    (resp : Response) (items : list (string * pyval)) (token : pyval) :
  requests_post (token_request consumer_key consumer_secret) w = (Ok resp, w') ->
  Response_json resp = Ok (PDict items) ->
  assoc "token_type" items = Some (PStr "bearer") ->
  assoc "access_token" items = Some token ->
  AppAuthHandler.__init__ consumer_key consumer_secret w
  = (Ok (AppAuthHandler.mk consumer_key consumer_secret token), w')
  /\ ((forall s, token <> PStr s) ->
      forall (M : Type) (ops : MutableMapping M) (request : ref)
             (m : machine (gmap ref (object M))),
      exists msg,
        OAuth2Bearer.__call__
          (AppAuthHandler.apply_auth
             (AppAuthHandler.mk consumer_key consumer_secret token))
          request m
        = (Raise (TypeError msg), m)).
Proof.
  intros Hpost Hjson Htype Htoken. unfold token_request in Hpost. split.
  - unfold AppAuthHandler.__init__, bind, lift, ret, py_get, py_getitem.
    by rewrite Hpost, Hjson, Htype, Htoken.
  - intros Hne M ops request m.
    unfold AppAuthHandler.apply_auth, OAuth2Bearer.__call__, OAuth2Bearer.__init__,
      bind, lift.
    cbn [AppAuthHandler._bearer_token OAuth2Bearer.bearer_token].
    destruct token; try (eexists; reflexivity). by destruct (Hne s).
Qed.

Lemma app_auth_token_is_not_validated_witness :
  @AppAuthHandler.__init__ (scripted halfway) (PStr "ck") (PStr "cs") O
  = (Ok (AppAuthHandler.mk (PStr "ck") (PStr "cs") (PInt 5)), 1).
Proof.
  apply (proj1 (@app_auth_token_is_not_validated (scripted halfway)
                  (PStr "ck") (PStr "cs") O 1
                  (mkResponse 200
                     (String.list_byte_of_string
                        "oauth_token=at&oauth_token_secret=as"))
                  [("token_type", PStr "bearer"); ("access_token", PInt 5)]
                  (PInt 5) eq_refl eq_refl eq_refl eq_refl)).
Defined.
